(** * toolkit-ai: response parsing, generation chains and lookup tools

    A shallow embedding of [dist/index.js] (and [src/tools/NpmInfo.ts]).

    JavaScript strings are held as Rocq strings (one [ascii] per byte of the
    UTF-8 text).  A promise is modelled by its settlement: [inl e] is a
    rejection (or a synchronous throw) with [e], [inr v] a fulfilment. *)

From Stdlib Require Import String Ascii List Bool NArith Arith Lia.
Import ListNotations.
Local Open Scope list_scope.
Local Open Scope string_scope.

Set Implicit Arguments.
Set Warnings "-register-all".

(** ** Strings *)

Module Str.

Fixpoint of_list (l : list ascii) : string :=
  match l with
  | [] => EmptyString
  | c :: t => String c (of_list t)
  end.

Fixpoint to_list (s : string) : list ascii :=
  match s with
  | EmptyString => []
  | String c t => c :: to_list t
  end.

(** [s.replaceAll(c, rep)] for a one-character pattern [c]. *)
Fixpoint replaceAll (c : ascii) (rep : string) (s : string) : string :=
  match s with
  | EmptyString => EmptyString
  | String x t =>
      if Ascii.eqb x c then rep ++ replaceAll c rep t
      else String x (replaceAll c rep t)
  end.

(** [s.slice(-1)]: the last character, or the empty string. *)
Fixpoint slice_last (s : string) : string :=
  match s with
  | EmptyString => EmptyString
  | String c EmptyString => String c EmptyString
  | String _ t => slice_last t
  end.

(** The double quote, and a string between double quotes. *)
Definition dquote : ascii := ascii_of_nat 34.

Definition quoted (s : string) : string :=
  String dquote (s ++ String dquote EmptyString).

(** A text written with ['] where it has a double quote. *)
Definition text (s : string) : string :=
  replaceAll "'" (String dquote EmptyString) s.

(** [s.split(c)] for a one-character separator [c]. *)
Fixpoint split (c : ascii) (s : string) : list string :=
  match s with
  | EmptyString => [EmptyString]
  | String x t =>
      if Ascii.eqb x c then EmptyString :: split c t
      else
        match split c t with
        | [] => [String x EmptyString]
        | piece :: pieces => String x piece :: pieces
        end
  end.

(** [parts.join(sep)]. *)
Fixpoint join (sep : string) (parts : list string) : string :=
  match parts with
  | [] => ""
  | [p] => p
  | p :: t => p ++ sep ++ join sep t
  end.

(** [t.startsWith(s)] *)
Fixpoint startsWith (t s : string) : bool :=
  match s, t with
  | EmptyString, _ => true
  | String a s', String b t' => Ascii.eqb a b && startsWith t' s'
  | String _ _, EmptyString => false
  end.

(** [t.includes(s)] *)
Fixpoint includes (t s : string) : bool :=
  startsWith t s
  || match t with
     | EmptyString => false
     | String _ t' => includes t' s
     end.

Fixpoint count (c : ascii) (s : string) : nat :=
  match s with
  | EmptyString => 0
  | String x t => (if Ascii.eqb x c then 1 else 0) + count c t
  end.

End Str.

(** ** JSON values and JavaScript objects

    An object is an association list in insertion order with one entry per
    key (JavaScript lists keys that are array indices first; no object below
    has one).  A number is kept as the decimal literal it was read from:
    nothing below inspects a numeric value. *)

Inductive json : Type :=
| JNull
| JBool (b : bool)
| JNum (literal : string)
| JStr (s : string)
| JArr (items : list json)
| JObj (members : list (string * json)).

Definition object := list (string * json).

Module Obj.

(** [o[k]]; [None] is [undefined]. *)
Fixpoint get (k : string) (o : object) : option json :=
  match o with
  | [] => None
  | (k', v) :: t => if String.eqb k k' then Some v else get k t
  end.

(** [o[k] = v]: an existing key keeps its position. *)
Fixpoint set (k : string) (v : json) (o : object) : object :=
  match o with
  | [] => [(k, v)]
  | (k', v') :: t =>
      if String.eqb k k' then (k, v) :: t else (k', v') :: set k v t
  end.

Definition keys (o : object) : list string := map fst o.

(** [{...a, ...b}]: the properties of [b] are assigned over [a] in order. *)
Definition spread (a b : object) : object :=
  fold_left (fun acc kv => set (fst kv) (snd kv) acc) b a.

End Obj.

(** ** [JSON.parse]

    The reader of the JSON grammar (ECMA-404): a scanner that consumes one
    character at a time, then a stack machine that consumes one token at a
    time.  Both are total; [None] is the [SyntaxError] that [JSON.parse]
    throws. *)

Module JSON.

Inductive token : Type :=
| TLBrace | TRBrace | TLBracket | TRBracket | TColon | TComma
| TString (s : string)
| TNumber (literal : string)
| TTrue | TFalse | TNull.

(** Where the scanner stands inside a number literal. *)
Inductive numstate : Type :=
| NMinus | NZero | NInt | NDot | NFrac | NExp | NExpSign | NExpDigits.

(** A character of a string literal: written as itself, or as [\uXXXX]. *)
Inductive strunit : Type :=
| Raw (c : ascii)
| Esc (u : N).

Inductive lexstate : Type :=
| LIdle
| LWord (rest : list ascii) (t : token)
| LNum (acc : list ascii) (st : numstate)
| LStr (acc : list strunit)
| LStrEsc (acc : list strunit)
| LStrUni (acc : list strunit) (digits : list N).

Definition code (c : ascii) : N := N_of_ascii c.

Definition is_ws (c : ascii) : bool :=
  let n := code c in
  (n =? 32)%N || (n =? 9)%N || (n =? 10)%N || (n =? 13)%N.

Definition is_digit (c : ascii) : bool :=
  let n := code c in (48 <=? n)%N && (n <=? 57)%N.

Definition is_digit19 (c : ascii) : bool :=
  let n := code c in (49 <=? n)%N && (n <=? 57)%N.

Definition is_e (c : ascii) : bool :=
  let n := code c in (n =? 101)%N || (n =? 69)%N.

Definition hex_value (c : ascii) : option N :=
  let n := code c in
  if (48 <=? n)%N && (n <=? 57)%N then Some (n - 48)%N
  else if (97 <=? n)%N && (n <=? 102)%N then Some (n - 87)%N
  else if (65 <=? n)%N && (n <=? 70)%N then Some (n - 55)%N
  else None.

Definition byte (n : N) : ascii := ascii_of_N n.

(** UTF-8 bytes of a code point. *)
Definition utf8 (cp : N) : list ascii :=
  if (cp <? 128)%N then [byte cp]
  else if (cp <? 2048)%N then
    [byte (192 + cp / 64); byte (128 + cp mod 64)]
  else if (cp <? 65536)%N then
    [byte (224 + cp / 4096); byte (128 + (cp / 64) mod 64);
     byte (128 + cp mod 64)]
  else
    [byte (240 + cp / 262144); byte (128 + (cp / 4096) mod 64);
     byte (128 + (cp / 64) mod 64); byte (128 + cp mod 64)].

Definition is_high_surrogate (u : N) : bool := (55296 <=? u)%N && (u <=? 56319)%N.
Definition is_low_surrogate (u : N) : bool := (56320 <=? u)%N && (u <=? 57343)%N.

(** The text of a string literal; an escaped surrogate pair is one code point. *)
Fixpoint decode (us : list strunit) : list ascii :=
  match us with
  | [] => []
  | Raw c :: t => c :: decode t
  | Esc hi :: t =>
      match t with
      | Esc lo :: t' =>
          if is_high_surrogate hi && is_low_surrogate lo
          then (utf8 (65536 + (hi - 55296) * 1024 + (lo - 56320)) ++ decode t')%list
          else (utf8 hi ++ decode t)%list
      | _ => (utf8 hi ++ decode t)%list
      end
  end.

Definition hex4 (ds : list N) : N :=
  fold_left (fun acc d => (acc * 16 + d)%N) ds 0%N.

(** The scanner between tokens. *)
Definition start (c : ascii) : option (lexstate * list token) :=
  if is_ws c then Some (LIdle, [])
  else if Ascii.eqb c "{" then Some (LIdle, [TLBrace])
  else if Ascii.eqb c "}" then Some (LIdle, [TRBrace])
  else if Ascii.eqb c "[" then Some (LIdle, [TLBracket])
  else if Ascii.eqb c "]" then Some (LIdle, [TRBracket])
  else if Ascii.eqb c ":" then Some (LIdle, [TColon])
  else if Ascii.eqb c "," then Some (LIdle, [TComma])
  else if Ascii.eqb c Str.dquote then Some (LStr [], [])
  else if Ascii.eqb c "-" then Some (LNum [c] NMinus, [])
  else if Ascii.eqb c "0" then Some (LNum [c] NZero, [])
  else if is_digit19 c then Some (LNum [c] NInt, [])
  else if Ascii.eqb c "t" then Some (LWord (Str.to_list "rue") TTrue, [])
  else if Ascii.eqb c "f" then Some (LWord (Str.to_list "alse") TFalse, [])
  else if Ascii.eqb c "n" then Some (LWord (Str.to_list "ull") TNull, [])
  else None.

(** The next state inside a number; [None] when [c] does not continue it. *)
Definition num_next (st : numstate) (c : ascii) : option numstate :=
  match st with
  | NMinus => if Ascii.eqb c "0" then Some NZero
              else if is_digit19 c then Some NInt else None
  | NZero => if Ascii.eqb c "." then Some NDot
             else if is_e c then Some NExp else None
  | NInt => if is_digit c then Some NInt
            else if Ascii.eqb c "." then Some NDot
            else if is_e c then Some NExp else None
  | NDot => if is_digit c then Some NFrac else None
  | NFrac => if is_digit c then Some NFrac
             else if is_e c then Some NExp else None
  | NExp => if is_digit c then Some NExpDigits
            else if Ascii.eqb c "+" || Ascii.eqb c "-" then Some NExpSign
            else None
  | NExpSign => if is_digit c then Some NExpDigits else None
  | NExpDigits => if is_digit c then Some NExpDigits else None
  end.

(** A number literal may end here. *)
Definition num_final (st : numstate) : bool :=
  match st with
  | NZero | NInt | NFrac | NExpDigits => true
  | _ => false
  end.

Definition number_token (acc : list ascii) : token :=
  TNumber (Str.of_list (rev acc)).

Definition lex_step (st : lexstate) (c : ascii) : option (lexstate * list token) :=
  match st with
  | LIdle => start c
  | LWord [] _ => None
  | LWord (x :: rest) t =>
      if Ascii.eqb c x then
        match rest with
        | [] => Some (LIdle, [t])
        | _ => Some (LWord rest t, [])
        end
      else None
  | LNum acc ns =>
      match num_next ns c with
      | Some ns' => Some (LNum (c :: acc) ns', [])
      | None =>
          if num_final ns then
            match start c with
            | Some (st', ts) => Some (st', number_token acc :: ts)
            | None => None
            end
          else None
      end
  | LStr acc =>
      if Ascii.eqb c Str.dquote then
        Some (LIdle, [TString (Str.of_list (decode (rev acc)))])
      else if Ascii.eqb c "\" then Some (LStrEsc acc, [])
      else if (code c <? 32)%N then None
      else Some (LStr (Raw c :: acc), [])
  | LStrEsc acc =>
      if Ascii.eqb c Str.dquote || Ascii.eqb c "\" || Ascii.eqb c "/"
      then Some (LStr (Raw c :: acc), [])
      else if Ascii.eqb c "b" then Some (LStr (Raw (byte 8) :: acc), [])
      else if Ascii.eqb c "f" then Some (LStr (Raw (byte 12) :: acc), [])
      else if Ascii.eqb c "n" then Some (LStr (Raw (byte 10) :: acc), [])
      else if Ascii.eqb c "r" then Some (LStr (Raw (byte 13) :: acc), [])
      else if Ascii.eqb c "t" then Some (LStr (Raw (byte 9) :: acc), [])
      else if Ascii.eqb c "u" then Some (LStrUni acc [], [])
      else None
  | LStrUni acc ds =>
      match hex_value c with
      | None => None
      | Some d =>
          let ds' := (ds ++ [d])%list in
          if (length ds' =? 4)%nat then Some (LStr (Esc (hex4 ds') :: acc), [])
          else Some (LStrUni acc ds', [])
      end
  end.

Fixpoint lex_from (st : lexstate) (cs : list ascii) : option (list token) :=
  match cs with
  | [] =>
      match st with
      | LIdle => Some []
      | LNum acc ns => if num_final ns then Some [number_token acc] else None
      | _ => None
      end
  | c :: t =>
      match lex_step st c with
      | None => None
      | Some (st', ts) =>
          match lex_from st' t with
          | None => None
          | Some rest => Some (ts ++ rest)%list
          end
      end
  end.

Definition lex (s : string) : option (list token) :=
  lex_from LIdle (Str.to_list s).

(** A container whose next element is being read. *)
Inductive frame : Type :=
| FArr (acc : list json)
| FObj (m : object) (k : string).

Inductive pstate : Type :=
| SValue (st : list frame)
| SArrStart (st : list frame)
| SArrAfter (acc : list json) (st : list frame)
| SObjStart (st : list frame)
| SObjKey (m : object) (st : list frame)
| SObjColon (m : object) (k : string) (st : list frame)
| SObjAfter (m : object) (st : list frame)
| SDone (v : json).

(** A finished value goes to the container that waits for it. *)
Definition deliver (v : json) (st : list frame) : pstate :=
  match st with
  | [] => SDone v
  | FArr acc :: st' => SArrAfter (v :: acc) st'
  | FObj m k :: st' => SObjAfter (Obj.set k v m) st'
  end.

Definition value_step (st : list frame) (t : token) : option pstate :=
  match t with
  | TNull => Some (deliver JNull st)
  | TTrue => Some (deliver (JBool true) st)
  | TFalse => Some (deliver (JBool false) st)
  | TNumber n => Some (deliver (JNum n) st)
  | TString s => Some (deliver (JStr s) st)
  | TLBracket => Some (SArrStart st)
  | TLBrace => Some (SObjStart st)
  | _ => None
  end.

Definition parse_step (p : pstate) (t : token) : option pstate :=
  match p, t with
  | SValue st, _ => value_step st t
  | SArrStart st, TRBracket => Some (deliver (JArr []) st)
  | SArrStart st, _ => value_step (FArr [] :: st) t
  | SArrAfter acc st, TComma => Some (SValue (FArr acc :: st))
  | SArrAfter acc st, TRBracket => Some (deliver (JArr (rev acc)) st)
  | SObjStart st, TRBrace => Some (deliver (JObj []) st)
  | SObjStart st, TString k => Some (SObjColon [] k st)
  | SObjKey m st, TString k => Some (SObjColon m k st)
  | SObjColon m k st, TColon => Some (SValue (FObj m k :: st))
  | SObjAfter m st, TComma => Some (SObjKey m st)
  | SObjAfter m st, TRBrace => Some (deliver (JObj m) st)
  | _, _ => None
  end.

Fixpoint parse_from (p : pstate) (ts : list token) : option json :=
  match ts with
  | [] => match p with SDone v => Some v | _ => None end
  | t :: rest =>
      match parse_step p t with
      | None => None
      | Some p' => parse_from p' rest
      end
  end.

Definition parse (text : string) : option json :=
  match lex text with
  | None => None
  | Some ts => parse_from (SValue []) ts
  end.

End JSON.

(** ** The zod schemas

    What the schema combinators used by [index.js] do on [parse]: a schema
    reads a value ([None] is [undefined]) found at a path and gives back the
    parsed value or the issues it raised. *)

Module z.

Inductive ZodParsedType : Type :=
| t_string | t_number | t_boolean | t_null | t_undefined | t_array | t_object.

Definition ZodParsedType_eqb (a b : ZodParsedType) : bool :=
  match a, b with
  | t_string, t_string | t_number, t_number | t_boolean, t_boolean
  | t_null, t_null | t_undefined, t_undefined | t_array, t_array
  | t_object, t_object => true
  | _, _ => false
  end.

Definition getParsedType (data : option json) : ZodParsedType :=
  match data with
  | None => t_undefined
  | Some JNull => t_null
  | Some (JBool _) => t_boolean
  | Some (JNum _) => t_number
  | Some (JStr _) => t_string
  | Some (JArr _) => t_array
  | Some (JObj _) => t_object
  end.

Inductive PathItem : Type :=
| Key (k : string)
| Index (i : nat).

Definition path := list PathItem.

Inductive ZodIssue : Type :=
| invalid_type (expected received : ZodParsedType) (p : path)
| invalid_union (unionErrors : list (list ZodIssue)) (p : path).

Definition issue_path (i : ZodIssue) : path :=
  match i with
  | invalid_type _ _ p => p
  | invalid_union _ p => p
  end.

Definition ParseReturn := (list ZodIssue + json)%type.
Definition Schema := path -> option json -> ParseReturn.

(** [z.string()], [z.number()], [z.boolean()], [z.null()]: the value must
    have the type; it is returned as it is. *)
Definition of_type (t : ZodParsedType) : Schema :=
  fun p data =>
    match data with
    | Some v =>
        if ZodParsedType_eqb (getParsedType data) t then inr v
        else inl [invalid_type t (getParsedType data) p]
    | None => inl [invalid_type t t_undefined p]
    end.

Definition string : Schema := of_type t_string.
Definition number : Schema := of_type t_number.
Definition boolean : Schema := of_type t_boolean.
Definition null : Schema := of_type t_null.

(** [z.union(options)]: the first option that accepts the value; when none
    does, one [invalid_union] issue holding every option's issues. *)
Fixpoint union_from (errors : list (list ZodIssue)) (options : list Schema)
  : Schema :=
  fun p data =>
    match options with
    | [] => inl [invalid_union errors p]
    | option :: rest =>
        match option p data with
        | inr v => inr v
        | inl issues => union_from (errors ++ [issues])%list rest p data
        end
    end.

Definition union (options : list Schema) : Schema := union_from [] options.

(** [ParseStatus.mergeArray]: every element is parsed; one failure fails all. *)
Fixpoint mergeArray (results : list ParseReturn) : list ZodIssue + list json :=
  match results with
  | [] => inr []
  | r :: rest =>
      match r, mergeArray rest with
      | inr v, inr vs => inr (v :: vs)
      | inl e, inr _ => inl e
      | inr _, inl es => inl es
      | inl e, inl es => inl (e ++ es)%list
      end
  end.

(** [ParseStatus.mergeObjectSync]: the parsed values are assigned key by key
    to a fresh object; a key [__proto__] does not become a property. *)
Fixpoint mergeObject (final : object) (pairs : list (String.string * ParseReturn))
  : list ZodIssue + object :=
  match pairs with
  | [] => inr final
  | (k, r) :: rest =>
      match r with
      | inr v =>
          mergeObject
            (if String.eqb k "__proto__" then final else Obj.set k v final) rest
      | inl e =>
          match mergeObject final rest with
          | inr _ => inl e
          | inl es => inl (e ++ es)%list
          end
      end
  end.

Section Containers.

Variable element : path -> json -> ParseReturn.

Fixpoint parse_items (p : path) (i : nat) (items : list json)
  : list ParseReturn :=
  match items with
  | [] => []
  | x :: rest => element (p ++ [Index i])%list x :: parse_items p (S i) rest
  end.

Fixpoint parse_members (p : path) (members : list (String.string * json))
  : list (String.string * ParseReturn) :=
  match members with
  | [] => []
  | (k, v) :: rest =>
      (k, element (p ++ [Key k])%list v) :: parse_members p rest
  end.

(** [z.array(element)] *)
Definition array_of (p : path) (data : option json) : ParseReturn :=
  match data with
  | Some (JArr items) =>
      match mergeArray (parse_items p 0 items) with
      | inr vs => inr (JArr vs)
      | inl e => inl e
      end
  | _ => inl [invalid_type t_array (getParsedType data) p]
  end.

(** [z.record(element)] *)
Definition record_of (p : path) (data : option json) : ParseReturn :=
  match data with
  | Some (JObj members) =>
      match mergeObject [] (parse_members p members) with
      | inr o => inr (JObj o)
      | inl e => inl e
      end
  | _ => inl [invalid_type t_object (getParsedType data) p]
  end.

End Containers.

Definition array (element : Schema) : Schema :=
  array_of (fun p v => element p (Some v)).

Definition record (element : Schema) : Schema :=
  record_of (fun p v => element p (Some v)).

(** [z.object(shape)] without [.strict()] or [.passthrough()]: every key of
    the shape is read from the data and parsed (a missing one as
    [undefined]); keys outside the shape are dropped. *)
Definition parse_shape (shape : list (String.string * Schema)) (p : path)
  (members : object) : list (String.string * ParseReturn) :=
  map (fun ks => (fst ks, snd ks (p ++ [Key (fst ks)])%list (Obj.get (fst ks) members)))
      shape.

Definition object_fields (shape : list (String.string * Schema)) (p : path)
  (data : option json) : list ZodIssue + object :=
  match data with
  | Some (JObj members) => mergeObject [] (parse_shape shape p members)
  | _ => inl [invalid_type t_object (getParsedType data) p]
  end.

Definition object (shape : list (String.string * Schema)) : Schema :=
  fun p data =>
    match object_fields shape p data with
    | inr o => inr (JObj o)
    | inl e => inl e
    end.

End z.

(** ** The schemas of [index.js] *)

Definition JsonPrimitiveSchema : z.Schema :=
  z.union [z.string; z.number; z.boolean; z.null].

(** [z.lazy(() => z.union([JsonPrimitiveSchema, z.array(JsonValueSchema),
    z.record(JsonValueSchema)]))], as a recursion on the value. *)
Fixpoint JsonValueSchema_on (p : z.path) (v : json) {struct v}
  : z.ParseReturn :=
  z.union
    [JsonPrimitiveSchema;
     z.array_of JsonValueSchema_on;
     z.record_of JsonValueSchema_on] p (Some v).

Definition JsonValueSchema : z.Schema :=
  fun p data =>
    match data with
    | Some v => JsonValueSchema_on p v
    | None =>
        z.union
          [JsonPrimitiveSchema;
           z.array_of JsonValueSchema_on;
           z.record_of JsonValueSchema_on] p None
    end.

Definition JsonObjectSchema : z.Schema := z.record JsonValueSchema.

Definition GeneratedToolShape : list (string * z.Schema) :=
  [("name", z.string);
   ("description", z.string);
   ("inputSchema", JsonObjectSchema);
   ("outputSchema", JsonObjectSchema);
   ("code", z.string)].

Definition GeneratedToolSchema : z.Schema := z.object GeneratedToolShape.

(** ** Exceptions *)

(** An [Error] instance thrown by a library. *)
Record ErrorObject : Type := { err_name : string; err_message : string }.

(** [Error.prototype.toString], which a template literal applies to it. *)
Definition Error_toString (e : ErrorObject) : string :=
  if String.eqb (err_name e) "" then err_message e
  else if String.eqb (err_message e) "" then err_name e
  else err_name e ++ ": " ++ err_message e.

Inductive exn : Type :=
| Error (message : string)
| ZodError (issues : list z.ZodIssue)
| Thrown (e : ErrorObject).

Definition result (A : Type) : Type := (exn + A)%type.

Definition bind {A B : Type} (r : result A) (k : A -> result B) : result B :=
  match r with
  | inl e => inl e
  | inr a => k a
  end.

Definition library {A : Type} (r : ErrorObject + A) : result A :=
  match r with
  | inl e => inl (Thrown e)
  | inr a => inr a
  end.

Declare Scope js_scope.
Delimit Scope js_scope with js.
Notation "'let*' x ':=' r 'in' k" := (bind r (fun x => k))
  (at level 10, x name, r at level 100, k at level 200) : js_scope.
Local Open Scope js_scope.

(** [GeneratedToolSchema.parse(data)]: the object built from the shape, or a
    [ZodError] holding the issues. *)
Definition GeneratedToolSchema_parse (data : json) : result object :=
  match z.object_fields GeneratedToolShape [] (Some data) with
  | inr generatedTool => inr generatedTool
  | inl issues => inl (ZodError issues)
  end.

(** ** ToolFormatter and Toolkit.parseResponse *)

(** A tool read at the type the formatter declares for it. *)
Record BaseTool : Type := {
  slug : string;
  name : string;
  description : string;
  inputSchema : option object;
  outputSchema : option object;
  code : string
}.

Definition optional_object (v : option json) : option (option object) :=
  match v with
  | None => Some None
  | Some (JObj m) => Some (Some m)
  | Some _ => None
  end.

Definition as_BaseTool (o : object) : option BaseTool :=
  match Obj.get "slug" o, Obj.get "name" o, Obj.get "description" o,
        Obj.get "code" o with
  | Some (JStr s), Some (JStr n), Some (JStr d), Some (JStr c) =>
      match optional_object (Obj.get "inputSchema" o),
            optional_object (Obj.get "outputSchema" o) with
      | Some i, Some out =>
          Some {| slug := s; name := n; description := d;
                  inputSchema := i; outputSchema := out; code := c |}
      | _, _ => None
      end
  | _, _, _, _ => None
  end.

(** [jsonSchema || null] *)
Definition or_null (jsonSchema : option object) : json :=
  match jsonSchema with
  | Some m => JObj m
  | None => JNull
  end.

Definition newline : string := String (ascii_of_nat 10) "".


(** ** The libraries the program calls

    None of them is code of this repository: slug, case and code formatting,
    JSON printing, templates, the file system and paths, the package
    registry, the search tool and the langchain chains.  A library call that
    throws is [inl]. *)

Definition ChainValues := list (string * string).

Record Tool : Type := {
  tool_name : string;
  tool_description : string;
  _call : string -> result string
}.

Record Packument : Type := { readme : option string }.

Record SearchResult : Type := {
  package_name : string;
  package_description : option string;
  score_final : string
}.

Record PromptTemplate : Type := {
  prompt_template : string;
  prompt_inputVariables : list string
}.

Class Libraries : Type := {
  slugify : string -> string;
  camelCase : string -> string;
  format : string -> ErrorObject + string;
  JSON_stringify : json -> string;
  JSON_stringify_indented : json -> string;
  Handlebars_compile : string -> object -> ErrorObject + string;
  readFileSync : string -> ErrorObject + string;
  import_meta_url : string;
  fileURLToPath : string -> string;
  dirname : string -> string;
  resolve : string -> string -> string;
  join : list string -> string;
  getPackument : string -> ErrorObject + Packument;
  searchPackages : string -> ErrorObject + list SearchResult;
  SerpAPI : string -> Tool;
  (** the [call] of [new LLMChain({ llm, prompt })], [llm] being the OpenAI
      model [gpt-4] at temperature 0 under the given key *)
  LLMChain_call :
    string -> PromptTemplate -> ChainValues -> ErrorObject + ChainValues;
  (** the [call] of [new AgentExecutor({ tools, agent })], [agent] being the
      [ZeroShotAgent] over the given [llmChain] *)
  AgentExecutor_call :
    list Tool -> (ChainValues -> ErrorObject + ChainValues) ->
    ChainValues -> ErrorObject + ChainValues
}.

Section Program.

Context {lib : Libraries}.

Definition resolveFromSrc (relativePath : string) : string :=
  let currentFileURL := import_meta_url in
  let currentFilePath := fileURLToPath currentFileURL in
  let currentDirPath := dirname currentFilePath in
  let rootPath := resolve currentDirPath "../.." in
  join [rootPath; "/src"; relativePath].

Definition readTemplate (name : string) : result string :=
  library (readFileSync (resolveFromSrc ("templates/" ++ name))).

Record ToolFormatter : Type := {
  tool : object;
  langchainTemplate : object -> ErrorObject + string
}.

Definition new_ToolFormatter (tool : object) : result ToolFormatter :=
  let* langchainTemplateString :=
    library (readFileSync (resolveFromSrc "templates/langchain-tool.hbs")) in
  inr {| tool := tool;
         langchainTemplate := Handlebars_compile langchainTemplateString |}.

Definition stringifyJsonSchema (jsonSchema : option object) : string :=
  Str.replaceAll (ascii_of_nat 10) (newline ++ "  ")
    (JSON_stringify_indented (or_null jsonSchema)).

Definition toLangChainDescription (description inputSchemaString : string)
  : string :=
  let result := description in
  let result :=
    if negb (String.eqb (Str.slice_last description) ".")
    then result ++ "." else result in
  let result :=
    result ++ " The action input should adhere to this JSON schema:" ++ newline in
  let result :=
    result ++ Str.replaceAll "}" "}}" (Str.replaceAll "{" "{{" inputSchemaString) in
  result.

Definition not_a_tool : exn :=
  Thrown {| err_name := "TypeError"; err_message := "not a tool" |}.

Definition toLangChain (this : ToolFormatter) : result string :=
  match as_BaseTool (tool this) with
  | None => inl not_a_tool
  | Some t =>
      let className := camelCase (slug t) in
      let* toolCode := library (format (code t)) in
      library (langchainTemplate this
        [("className", JStr className);
         ("toolCode", JStr toolCode);
         ("toolSlug", JStr (slug t));
         ("langchainDescription",
          JStr (toLangChainDescription (description t)
                  (JSON_stringify (or_null (inputSchema t)))));
         ("inputSchema", JStr (stringifyJsonSchema (inputSchema t)));
         ("outputSchema", JStr (stringifyJsonSchema (outputSchema t)))])
  end.

Definition toolWithFormats (this : ToolFormatter) : result object :=
  let* langChainCode := toLangChain this in
  inr (Obj.set "langChainCode" (JStr langChainCode) (Obj.spread [] (tool this))).

(** [slugify(generatedTool.name)]: the library rejects what is not a string. *)
Definition slugify_value (v : option json) : result string :=
  match v with
  | Some (JStr s) => inr (slugify s)
  | _ => inl (Thrown {| err_name := "TypeError";
                        err_message := "Expected a string" |})
  end.

Definition parseResponse (responseString : string) : result object :=
  match JSON.parse responseString with
  | None =>
      inl (Error ("response could not be parsed as JSON: " ++ responseString))
  | Some responseObject =>
      let* generatedTool := GeneratedToolSchema_parse responseObject in
      let* slug := slugify_value (Obj.get "name" generatedTool) in
      let baseTool := Obj.spread [("slug", JStr slug)] generatedTool in
      let* formatter := new_ToolFormatter baseTool in
      toolWithFormats formatter
  end.


(** *** Generation chains

    The values a chain is called with and answers with are strings held
    under names.  A chain's callback manager is its list of handlers; each
    [new ConsoleCallbackHandler] is a handler of its own. *)

Fixpoint values_get (k : string) (values : ChainValues) : option string :=
  match values with
  | [] => None
  | (k', v) :: t => if String.eqb k k' then Some v else values_get k t
  end.

(** [`${values}`] on a plain object is [Object.prototype.toString]. *)
Definition Object_toString (values : ChainValues) : string :=
  "[object Object]".

Definition Handler := nat.

Record ChainState : Type := {
  handlers : list Handler;
  created : nat;
  calls : list ChainValues
}.

Definition M (A : Type) : Type := ChainState -> result A * ChainState.

Definition new_ConsoleCallbackHandler (s : ChainState) : Handler * ChainState :=
  (created s,
   {| handlers := handlers s; created := S (created s); calls := calls s |}).

Definition addHandler (h : Handler) (s : ChainState) : ChainState :=
  {| handlers := (handlers s ++ [h])%list; created := created s;
     calls := calls s |}.

Definition removeHandler (h : Handler) (s : ChainState) : ChainState :=
  {| handlers := filter (fun h' => negb (Nat.eqb h' h)) (handlers s);
     created := created s; calls := calls s |}.

Record BaseChain (Input : Type) : Type := {
  openAIApiKey : string;
  logToConsole : bool;
  chain : ChainValues -> ErrorObject + ChainValues;
  getOutputKey : string;
  getChainValues : Input -> ChainValues
}.

(** [await this.chain.call(chainValues)] *)
Definition chain_call {Input : Type} (this : BaseChain Input)
  (chainValues : ChainValues) (s : ChainState)
  : result ChainValues * ChainState :=
  (library (chain this chainValues),
   {| handlers := handlers s; created := created s;
      calls := (calls s ++ [chainValues])%list |}).

Definition not_returned (outputKey : string) (responseValues : ChainValues)
  : exn :=
  Error ("value " ++ Str.quoted outputKey
         ++ " not returned from chain call, got values: "
         ++ Object_toString responseValues).

Definition generate {Input : Type} (this : BaseChain Input) (input : Input)
  : M string :=
  fun s =>
    let outputKey := getOutputKey this in
    let chainValues := getChainValues this input in
    let (consoleCallbackHandler, s) := new_ConsoleCallbackHandler s in
    let s :=
      if logToConsole this then addHandler consoleCallbackHandler s else s in
    let (called, s) := chain_call this chainValues s in
    match called with
    | inl err => (inl err, s)
    | inr responseValues =>
        match values_get outputKey responseValues with
        | None => (inl (not_returned outputKey responseValues), s)
        | Some responseString =>
            if String.eqb responseString "" then
              (inl (not_returned outputKey responseValues), s)
            else
              let s :=
                if logToConsole this
                then removeHandler consoleCallbackHandler s else s in
              (inr responseString, s)
        end
    end.

(** *** Lookup tools *)

(** [results.readme || 'No details available'] *)
Definition readme_or (results : Packument) : string :=
  match readme results with
  | Some text => if String.eqb text "" then "No details available" else text
  | None => "No details available"
  end.

Definition NpmInfo_call (packageName : string) : result string :=
  match getPackument packageName with
  | inr results => inr (readme_or results)
  | inl err => inr ("Error: " ++ Error_toString err)
  end.

Definition NpmInfo : Tool := {|
  tool_name := "npm-info";
  tool_description :=
    "Query NPM to fetch the README file of a particular package by name. Use this to discover implementation and usage details for a given package.";
  _call := NpmInfo_call
|}.

(** One entry of [info]; a description that is [undefined] is not
    serialized. *)
Definition search_info (r : SearchResult) : json :=
  JObj ([("name", JStr (package_name r))]
        ++ match package_description r with
           | Some d => [("description", JStr d)]
           | None => []
           end
        ++ [("score", JNum (score_final r))])%list.

Definition NpmSearch_call (searchString : string) : result string :=
  match searchPackages searchString with
  | inr results =>
      if (length results <? 1)%nat then inr "Error: no results"
      else
        let info := map search_info results in
        inr (JSON_stringify (JArr info))
  | inl err => inr ("Error: " ++ Error_toString err)
  end.

Definition NpmSearch : Tool := {|
  tool_name := "npm-search";
  tool_description :=
    "Search NPM to find packages given a search string. The response is an array of JSON objects including package names, descriptions, and overall quality scores.";
  _call := NpmSearch_call
|}.

(** *** The three chains *)

Record ChainInput : Type := {
  input_openAIApiKey : string;
  input_serpApiKey : string;
  input_logToConsole : bool
}.

Definition chain_tools (input : ChainInput) : list Tool :=
  [NpmSearch; NpmInfo; SerpAPI (input_serpApiKey input)].

Definition tools_listing (tools : list Tool) : string :=
  Str.join newline
    (map (fun t => tool_name t ++ ": " ++ tool_description t) tools).

Definition tools_names (tools : list Tool) : string :=
  Str.join ", " (map tool_name tools).

(** [Handlebars.compile(readTemplate(name))(context)] *)
Definition render (name : string) (context : object) : result string :=
  let* source := readTemplate name in
  library (Handlebars_compile source context).

Definition newLlmChain (openAIApiKey : string) (prompt : PromptTemplate)
  : ChainValues -> ErrorObject + ChainValues :=
  LLMChain_call openAIApiKey prompt.

Definition SimpleChain_getPromptTemplate : result PromptTemplate :=
  let* toolSpec := readTemplate "tool-spec.txt" in
  let* template :=
    render "generate-tool-prompt.hbs" [("toolSpec", JStr toolSpec)] in
  inr {| prompt_template := template;
         prompt_inputVariables := ["generateToolInput"] |}.

Definition SimpleChain (input : ChainInput) : result (BaseChain json) :=
  let* prompt := SimpleChain_getPromptTemplate in
  inr {| openAIApiKey := input_openAIApiKey input;
         logToConsole := input_logToConsole input;
         chain := newLlmChain (input_openAIApiKey input) prompt;
         getOutputKey := "text";
         getChainValues := fun input =>
           [("generateToolInput", JSON_stringify input)] |}.

Definition ExecutorChain_getPromptTemplate : result PromptTemplate :=
  let* toolSpec := readTemplate "tool-spec.txt" in
  let* generateToolPrompt :=
    render "generate-tool-prompt.hbs" [("toolSpec", JStr toolSpec)] in
  let* template :=
    render "executor-prompt.hbs" [("prompt", JStr generateToolPrompt)] in
  inr {| prompt_template := template;
         prompt_inputVariables :=
           ["generateToolInput"; "tools"; "toolNames"; "agent_scratchpad"] |}.

Definition ExecutorChain (input : ChainInput) : result (BaseChain json) :=
  let tools := chain_tools input in
  let* prompt := ExecutorChain_getPromptTemplate in
  let llmChain := newLlmChain (input_openAIApiKey input) prompt in
  inr {| openAIApiKey := input_openAIApiKey input;
         logToConsole := input_logToConsole input;
         chain := AgentExecutor_call tools llmChain;
         getOutputKey := "output";
         getChainValues := fun input =>
           [("generateToolInput", JSON_stringify input);
            ("tools", tools_listing tools);
            ("toolNames", tools_names tools)] |}.

Record IterateInput : Type := { iterate_tool : json; iterate_logs : string }.

Definition IteratorChain_getPromptTemplate : result PromptTemplate :=
  let* toolSpec := readTemplate "tool-spec.txt" in
  let* iterateToolPrompt :=
    render "iterate-tool-prompt.hbs" [("toolSpec", JStr toolSpec)] in
  let* template :=
    render "executor-prompt.hbs" [("prompt", JStr iterateToolPrompt)] in
  inr {| prompt_template := template;
         prompt_inputVariables :=
           ["tool"; "runLogs"; "tools"; "toolNames"; "agent_scratchpad"] |}.

Definition IteratorChain (input : ChainInput)
  : result (BaseChain IterateInput) :=
  let tools := chain_tools input in
  let* prompt := IteratorChain_getPromptTemplate in
  let llmChain := newLlmChain (input_openAIApiKey input) prompt in
  inr {| openAIApiKey := input_openAIApiKey input;
         logToConsole := input_logToConsole input;
         chain := AgentExecutor_call tools llmChain;
         getOutputKey := "output";
         getChainValues := fun input =>
           [("tool", JSON_stringify (iterate_tool input));
            ("runLogs", iterate_logs input);
            ("tools", tools_listing tools);
            ("toolNames", tools_names tools)] |}.

(** *** Toolkit *)

Record Toolkit : Type := {
  generatorChain : BaseChain json;
  executorChain : BaseChain json;
  iteratorChain : BaseChain IterateInput
}.

Record ToolkitInput : Type := {
  toolkit_openAIApiKey : option string;
  toolkit_serpApiKey : option string;
  toolkit_logToConsole : option bool
}.

(** [a || b] on strings that may be [undefined]. *)
Definition string_or (a b : option string) : option string :=
  match a with
  | Some s => if String.eqb s "" then b else a
  | None => b
  end.

Definition new_Toolkit (input : option ToolkitInput)
  (process_env : string -> option string) : result Toolkit :=
  let pick {A : Type} (f : ToolkitInput -> option A) : option A :=
    match input with Some i => f i | None => None end in
  match string_or (pick toolkit_openAIApiKey) (process_env "OPENAI_API_KEY") with
  | None | Some "" =>
      inl (Error "OpenAI API key not defined in params or environment")
  | Some openAIApiKey =>
      match string_or (pick toolkit_serpApiKey) (process_env "SERP_API_KEY") with
      | None | Some "" =>
          inl (Error "Serp API key not defined in params or environment")
      | Some serpApiKey =>
          let logToConsole :=
            match pick toolkit_logToConsole with
            | Some b => b
            | None => false
            end in
          let chainInput :=
            {| input_openAIApiKey := openAIApiKey;
               input_serpApiKey := serpApiKey;
               input_logToConsole := logToConsole |} in
          let* generatorChain := SimpleChain chainInput in
          let* executorChain := ExecutorChain chainInput in
          let* iteratorChain := IteratorChain chainInput in
          inr {| generatorChain := generatorChain;
                 executorChain := executorChain;
                 iteratorChain := iteratorChain |}
      end
  end.

(** The callback managers and call records of the three chains. *)
Record ToolkitState : Type := {
  generatorState : ChainState;
  executorState : ChainState;
  iteratorState : ChainState
}.

Definition on_generator {A : Type} (m : M A) (w : ToolkitState)
  : result A * ToolkitState :=
  let (r, s) := m (generatorState w) in
  (r, {| generatorState := s; executorState := executorState w;
         iteratorState := iteratorState w |}).

Definition on_executor {A : Type} (m : M A) (w : ToolkitState)
  : result A * ToolkitState :=
  let (r, s) := m (executorState w) in
  (r, {| generatorState := generatorState w; executorState := s;
         iteratorState := iteratorState w |}).


Definition generateTool (this : Toolkit) (input : json) (withExecutor : bool)
  (w : ToolkitState) : result object * ToolkitState :=
  let (responseString, w) :=
    if withExecutor
    then on_generator (generate (generatorChain this) input) w
    else on_executor (generate (executorChain this) input) w in
  (bind responseString parseResponse, w).


End Program.


(** ** Template text *)

Definition is_brace (c : ascii) : bool := Ascii.eqb c "{" || Ascii.eqb c "}".

(** Every brace written twice, every other character once. *)
Fixpoint double_braces (s : string) : string :=
  match s with
  | EmptyString => EmptyString
  | String c t =>
      if is_brace c then String c (String c (double_braces t))
      else String c (double_braces t)
  end.

(** The text a template stands for when it holds no placeholder: a doubled
    brace is that brace, a brace on its own is not text. *)
Fixpoint literal_text (s : string) : option string :=
  match s with
  | EmptyString => Some EmptyString
  | String c t =>
      if is_brace c then
        match t with
        | String c' t' =>
            if Ascii.eqb c' c then option_map (String c) (literal_text t')
            else None
        | EmptyString => None
        end
      else option_map (String c) (literal_text t)
  end.

Definition schema_sentence : string :=
  " The action input should adhere to this JSON schema:" ++ newline.

(** ** Callback managers *)

(** Every handler of the callback manager was made before now. *)
Definition handlers_known (s : ChainState) : Prop :=
  Forall (fun h => h < created s) (handlers s).

(** ** Responses *)

(** A schema took the value. *)
Definition accepted (r : z.ParseReturn) : Prop := exists v, r = inr v.

(** The members of a response object that has the five fields of a
    generated tool, each of its type. *)
Definition GeneratedTool_shaped (members : object) (n d : string)
  (i o : object) (c : string) : Prop :=
  Obj.get "name" members = Some (JStr n)
  /\ Obj.get "description" members = Some (JStr d)
  /\ Obj.get "inputSchema" members = Some (JObj i)
  /\ Obj.get "outputSchema" members = Some (JObj o)
  /\ Obj.get "code" members = Some (JStr c).

(** The formatting libraries do their work on the code [c]: the template
    file is read, the code is formatted and the template renders. *)
Definition formats {lib : Libraries} (c : string) : Prop :=
  exists template formatted,
    readFileSync (resolveFromSrc "templates/langchain-tool.hbs") = inr template
    /\ format c = inr formatted
    /\ forall context, exists rendered,
         Handlebars_compile template context = inr rendered.

Definition required_fields : list string :=
  ["name"; "description"; "inputSchema"; "outputSchema"; "code"].

Definition tool_fields : list string :=
  ["slug"; "name"; "description"; "inputSchema"; "outputSchema"; "code";
   "langChainCode"].

(** The object [GeneratedToolSchema] builds, and the tool made from it. *)
Definition generated (n d : string) (i o : object) (c : string) : object :=
  [("name", JStr n); ("description", JStr d); ("inputSchema", JObj i);
   ("outputSchema", JObj o); ("code", JStr c)].

Definition formatted_tool (s n d : string) (i o : object) (c : string)
  (langChainCode : string) : object :=
  ("slug", JStr s) :: (generated n d i o c
                         ++ [("langChainCode", JStr langChainCode)])%list.

(** The type a field of the shape asks for. *)
Definition expected_type (k : string) : z.ZodParsedType :=
  if String.eqb k "inputSchema" || String.eqb k "outputSchema"
  then z.t_object else z.t_string.

(** The name a response carries, when it is an object with a string name. *)
Definition response_name (responseString : string) : option string :=
  match JSON.parse responseString with
  | Some (JObj members) =>
      match Obj.get "name" members with
      | Some (JStr n) => Some n
      | _ => None
      end
  | _ => None
  end.

Definition csv_response : string :=
  Str.text
    "{'name':'CSV Parser','description':'Parses CSV.','inputSchema':{},'outputSchema':{},'code':'function f(x){return x}'}".

(** ** Runs of a chain *)

(** The text [generate] has to return: the value the chain's response holds
    under the output key, when the call succeeds and the value is not empty. *)
Definition answer {Input : Type} (this : BaseChain Input) (input : Input)
  : option string :=
  match chain this (getChainValues this input) with
  | inl _ => None
  | inr responseValues =>
      match values_get (getOutputKey this) responseValues with
      | Some responseString =>
          if String.eqb responseString "" then None else Some responseString
      | None => None
      end
  end.

(** One call of [generate] after the other, on the same chain. *)
Fixpoint generate_all {Input : Type} (this : BaseChain Input)
  (inputs : list Input) (s : ChainState) : ChainState :=
  match inputs with
  | [] => s
  | input :: rest => generate_all this rest (snd (generate this input s))
  end.

(** ** Keys *)

(** A key that counts as given: a string that is not empty. *)
Definition given (key : option string) : bool :=
  match key with
  | Some s => negb (String.eqb s "")
  | None => false
  end.

Definition input_key (f : ToolkitInput -> option string)
  (input : option ToolkitInput) : option string :=
  match input with
  | Some i => f i
  | None => None
  end.

(** The key the constructor settles on: the caller's when given, else the
    environment's. *)
Definition settled (explicit environment : option string) : option string :=
  if given explicit then explicit else environment.

(** The flag the constructor settles on. *)
Definition flag_of (input : option ToolkitInput) : bool :=
  match input with
  | Some {| toolkit_logToConsole := Some b |} => b
  | _ => false
  end.

(** What the constructor does once it has a key of each kind. *)
Definition build {lib : Libraries} (openAIApiKey serpApiKey : string)
  (logToConsole : bool) : result Toolkit :=
  let chainInput :=
    {| input_openAIApiKey := openAIApiKey;
       input_serpApiKey := serpApiKey;
       input_logToConsole := logToConsole |} in
  let* generatorChain := SimpleChain chainInput in
  let* executorChain := ExecutorChain chainInput in
  let* iteratorChain := IteratorChain chainInput in
  inr {| generatorChain := generatorChain;
         executorChain := executorChain;
         iteratorChain := iteratorChain |}.

(** ** Values and issues *)

Fixpoint distinct (keys : list string) : bool :=
  match keys with
  | [] => true
  | k :: rest => negb (existsb (String.eqb k) rest) && distinct rest
  end.

(** A value every object of which has its keys once and no key
    [__proto__]. *)
Fixpoint plain (v : json) : bool :=
  match v with
  | JArr items => forallb plain items
  | JObj members =>
      distinct (map fst members)
      && negb (existsb (String.eqb "__proto__") (map fst members))
      && forallb (fun kv => let '(_, x) := kv in plain x) members
  | _ => true
  end.

(** The issue [GeneratedToolSchema] has with a field: none when the field
    has the type asked for. *)
Definition field_issue (members : object) (k : string) : list z.ZodIssue :=
  let received := z.getParsedType (Obj.get k members) in
  if z.ZodParsedType_eqb received (expected_type k) then []
  else [z.invalid_type (expected_type k) received [z.Key k]].

Definition field_issues (members : object) : list z.ZodIssue :=
  flat_map (field_issue members) required_fields.

Definition result_issues {A : Type} (r : list z.ZodIssue + A)
  : list z.ZodIssue :=
  match r with
  | inl issues => issues
  | inr _ => []
  end.

(** A value every object of which has its keys once. *)
Fixpoint unique (v : json) : bool :=
  match v with
  | JArr items => forallb unique items
  | JObj members =>
      distinct (map fst members)
      && forallb (fun kv => let '(_, x) := kv in unique x) members
  | _ => true
  end.

(** A value no object of which has a key [__proto__]. *)
Fixpoint protoless (v : json) : bool :=
  match v with
  | JArr items => forallb protoless items
  | JObj members =>
      negb (existsb (String.eqb "__proto__") (map fst members))
      && forallb (fun kv => let '(_, x) := kv in protoless x) members
  | _ => true
  end.

(** The members read so far are those of a valid object. *)
Definition unique_members (m : object) : bool := unique (JObj m).

Definition unique_frame (f : JSON.frame) : bool :=
  match f with
  | JSON.FArr acc => forallb unique acc
  | JSON.FObj m _ => unique_members m
  end.

Definition unique_state (p : JSON.pstate) : bool :=
  match p with
  | JSON.SValue st | JSON.SArrStart st | JSON.SObjStart st =>
      forallb unique_frame st
  | JSON.SArrAfter acc st => forallb unique acc && forallb unique_frame st
  | JSON.SObjKey m st | JSON.SObjColon m _ st | JSON.SObjAfter m st =>
      unique_members m && forallb unique_frame st
  | JSON.SDone v => unique v
  end.

(** The context [toLangChain] renders the template on. *)
Definition langchain_context {lib : Libraries} (s d : string) (i o : object)
  (toolCode : string) : object :=
  [("className", JStr (camelCase s));
   ("toolCode", JStr toolCode);
   ("toolSlug", JStr s);
   ("langchainDescription",
    JStr (toLangChainDescription d (JSON_stringify (JObj i))));
   ("inputSchema", JStr (stringifyJsonSchema (Some i)));
   ("outputSchema", JStr (stringifyJsonSchema (Some o)))].

(** ** A run-time to try the program on

    Stand-ins for the libraries, enough to run the program on examples: a slug
    function for plain ASCII names (letters lower-cased, every other run of
    characters a single hyphen, none at the ends), a formatter that leaves the
    code as it is, a template that prints the class name, and a model that
    answers every chain with the same tool. *)

Module Demo.

Definition is_upper (c : ascii) : bool :=
  let n := N_of_ascii c in (65 <=? n)%N && (n <=? 90)%N.

Definition is_alnum (c : ascii) : bool :=
  let n := N_of_ascii c in
  ((48 <=? n)%N && (n <=? 57)%N) || ((65 <=? n)%N && (n <=? 90)%N)
  || ((97 <=? n)%N && (n <=? 122)%N).

Definition lower (c : ascii) : ascii :=
  if is_upper c then ascii_of_N (N_of_ascii c + 32) else c.

Fixpoint slug_from (started pending : bool) (cs : list ascii) : list ascii :=
  match cs with
  | [] => []
  | c :: t =>
      if is_alnum c then
        if started && pending
        then "-"%char :: lower c :: slug_from true false t
        else lower c :: slug_from true false t
      else slug_from started true t
  end.

Definition ascii_slug (s : string) : string :=
  Str.of_list (slug_from false false (Str.to_list s)).

Definition search_tool (key : string) : Tool := {|
  tool_name := "search";
  tool_description := "a search engine";
  _call := fun query => inr ("results for " ++ query)
|}.

(** The registry knows one package, with a readme. *)
Definition registry (packageName : string) : ErrorObject + Packument :=
  if String.eqb packageName "left-pad"
  then inr {| readme := Some "Pads on the left." |}
  else inl {| err_name := "FetchError"; err_message := "404 Not Found" |}.

Definition render_class (source : string) (context : object)
  : ErrorObject + string :=
  match Obj.get "className" context with
  | Some (JStr className) => inr ("class " ++ className)
  | _ => inr source
  end.

Definition libraries : Libraries := {|
  slugify := ascii_slug;
  camelCase := fun s => s;
  format := fun code => inr code;
  JSON_stringify := fun _ => "null";
  JSON_stringify_indented := fun _ => "null";
  Handlebars_compile := render_class;
  readFileSync := fun path => inr path;
  import_meta_url := "/app/dist/esm/index.js";
  fileURLToPath := fun url => url;
  dirname := fun p => "/app/dist/esm";
  resolve := fun a b => "/app";
  join := Str.join "";
  getPackument := registry;
  searchPackages := fun _ => inr [];
  SerpAPI := search_tool;
  LLMChain_call := fun _ _ _ => inr [("text", csv_response)];
  AgentExecutor_call := fun _ _ _ => inr [("output", csv_response)]
|}.

(** A chain that logs and whose model answers under a name of its own. *)
Definition stray_chain : BaseChain json := {|
  openAIApiKey := "sk";
  logToConsole := true;
  chain := fun _ => inr [("answer", "42")];
  getOutputKey := "text";
  getChainValues := fun input => [("generateToolInput", "null")]
|}.

(** A chain that logs and whose model answers with no text. *)
Definition mute_chain : BaseChain json := {|
  openAIApiKey := "sk";
  logToConsole := true;
  chain := fun _ => inr [("text", "")];
  getOutputKey := "text";
  getChainValues := fun input => [("generateToolInput", "null")]
|}.

(** A chain that logs and whose model cannot be reached. *)
Definition failing_chain : BaseChain json := {|
  openAIApiKey := "sk";
  logToConsole := true;
  chain := fun _ =>
    inl {| err_name := "Error";
           err_message := "Request failed with status code 429" |};
  getOutputKey := "output";
  getChainValues := fun input => [("generateToolInput", "null")]
|}.

(** A response that brings a slug and a key of its own. *)
Definition overriding_members : object :=
  [("slug", JStr "evil"); ("name", JStr "CSV Parser");
   ("description", JStr "Parses CSV."); ("inputSchema", JObj []);
   ("outputSchema", JObj []); ("code", JStr "function f(x){return x}");
   ("extra", JNum "1")].

Definition overriding_response : string :=
  Str.text
    "{'slug':'evil','name':'CSV Parser','description':'Parses CSV.','inputSchema':{},'outputSchema':{},'code':'function f(x){return x}','extra':1}".

(** A response cut short. *)
Definition cut_response : string := Str.text "{'name': ".

(** A response without code. *)
Definition codeless_members : object :=
  [("name", JStr "CSV Parser"); ("description", JStr "Parses CSV.");
   ("inputSchema", JObj []); ("outputSchema", JObj [])].

Definition codeless_response : string :=
  Str.text
    "{'name':'CSV Parser','description':'Parses CSV.','inputSchema':{},'outputSchema':{}}".

Definition fresh : ChainState := {| handlers := []; created := 0; calls := [] |}.

Definition world : ToolkitState :=
  {| generatorState := fresh; executorState := fresh; iteratorState := fresh |}.

Definition keys : ToolkitInput := {|
  toolkit_openAIApiKey := Some "k1";
  toolkit_serpApiKey := Some "k2";
  toolkit_logToConsole := None
|}.

(** A chain that logs and whose model answers with the tool. *)
Definition answering_chain : BaseChain json := {|
  openAIApiKey := "sk";
  logToConsole := true;
  chain := fun _ => inr [("text", csv_response)];
  getOutputKey := "text";
  getChainValues := fun input => [("generateToolInput", "null")]
|}.

(** A chain that does not log and whose model answers under a name of its
    own. *)
Definition quiet_chain : BaseChain json := {|
  openAIApiKey := "sk";
  logToConsole := false;
  chain := fun _ => inr [("answer", "42")];
  getOutputKey := "output";
  getChainValues := fun input => [("generateToolInput", "null")]
|}.

(** A callback manager that already holds two handlers. *)
Definition busy : ChainState :=
  {| handlers := [0; 2]; created := 3; calls := [] |}.

Definition no_file : ErrorObject :=
  {| err_name := "Error"; err_message := "ENOENT: no such file or directory" |}.

Definition bad_code : ErrorObject :=
  {| err_name := "SyntaxError"; err_message := "Unexpected token (1:1)" |}.

(** The same libraries on a disk without the template files. *)
Definition without_files : Libraries := {|
  slugify := ascii_slug;
  camelCase := fun s => s;
  format := fun code => inr code;
  JSON_stringify := fun _ => "null";
  JSON_stringify_indented := fun _ => "null";
  Handlebars_compile := render_class;
  readFileSync := fun path => inl no_file;
  import_meta_url := "/app/dist/esm/index.js";
  fileURLToPath := fun url => url;
  dirname := fun p => "/app/dist/esm";
  resolve := fun a b => "/app";
  join := Str.join "";
  getPackument := registry;
  searchPackages := fun _ => inr [];
  SerpAPI := search_tool;
  LLMChain_call := fun _ _ _ => inr [("text", csv_response)];
  AgentExecutor_call := fun _ _ _ => inr [("output", csv_response)]
|}.

(** The same libraries with a formatter that refuses every code. *)
Definition with_strict_formatter : Libraries := {|
  slugify := ascii_slug;
  camelCase := fun s => s;
  format := fun code => inl bad_code;
  JSON_stringify := fun _ => "null";
  JSON_stringify_indented := fun _ => "null";
  Handlebars_compile := render_class;
  readFileSync := fun path => inr path;
  import_meta_url := "/app/dist/esm/index.js";
  fileURLToPath := fun url => url;
  dirname := fun p => "/app/dist/esm";
  resolve := fun a b => "/app";
  join := Str.join "";
  getPackument := registry;
  searchPackages := fun _ => inr [];
  SerpAPI := search_tool;
  LLMChain_call := fun _ _ _ => inr [("text", csv_response)];
  AgentExecutor_call := fun _ _ _ => inr [("output", csv_response)]
|}.

Definition no_env (name : string) : option string := None.

(** The caller gives an empty OpenAI key and the environment a real one. *)
Definition empty_key : ToolkitInput := {|
  toolkit_openAIApiKey := Some "";
  toolkit_serpApiKey := Some "k2";
  toolkit_logToConsole := Some true
|}.

Definition env_key (name : string) : option string :=
  if String.eqb name "OPENAI_API_KEY" then Some "from-env" else None.

Definition request : IterateInput :=
  {| iterate_tool := JNull; iterate_logs := "test failed: expected 3 got 4" |}.

(** A schema with nested values. *)
Definition nested_schema : object :=
  [("type", JStr "object");
   ("properties",
    JObj [("rows", JObj [("type", JStr "array");
                         ("items", JArr [JNum "1"; JBool true; JNull])])])].



End Demo.

(** * Properties *)

(** ** Strings *)

Lemma append_assoc (a b c : string) : (a ++ b) ++ c = a ++ (b ++ c).
Proof.
  induction a as [|x a IH]; simpl; [reflexivity | now rewrite IH].
Qed.

Lemma append_empty_r (a : string) : a ++ "" = a.
Proof.
  induction a as [|x a IH]; simpl; [reflexivity | now rewrite IH].
Qed.

Lemma startsWith_append (s post : string) : Str.startsWith (s ++ post) s = true.
Proof.
  induction s as [|c s IH]; simpl; [now destruct post|].
  now rewrite Ascii.eqb_refl, IH.
Qed.

Lemma includes_append (pre s post : string) :
  Str.includes (pre ++ s ++ post) s = true.
Proof.
  induction pre as [|c pre IH]; simpl.
  - pose proof (startsWith_append s post) as Hs.
    destruct (s ++ post); simpl in *; now rewrite Hs.
  - rewrite IH. apply orb_true_r.
Qed.

Lemma includes_suffix (pre s : string) : Str.includes (pre ++ s) s = true.
Proof.
  rewrite <- (append_empty_r s) at 1. apply includes_append.
Qed.

Lemma replaceAll_braces (s : string) :
  Str.replaceAll "}" "}}" (Str.replaceAll "{" "{{" s) = double_braces s.
Proof.
  induction s as [|c s IH]; simpl; [reflexivity|].
  unfold is_brace.
  destruct (Ascii.eqb_spec c "{") as [->|Hopen]; simpl.
  - now rewrite IH.
  - destruct (Ascii.eqb_spec c "}") as [->|Hclose]; simpl; now rewrite IH.
Qed.

Lemma literal_text_double_braces (s : string) :
  literal_text (double_braces s) = Some s.
Proof.
  induction s as [|c s IH]; simpl; [reflexivity|].
  destruct (is_brace c) eqn:Hc; simpl; rewrite Hc.
  - rewrite Ascii.eqb_refl, IH. reflexivity.
  - rewrite IH. reflexivity.
Qed.

Lemma count_double_braces (c : ascii) (s : string) :
  Str.count c (double_braces s)
  = if is_brace c then 2 * Str.count c s else Str.count c s.
Proof.
  induction s as [|x s IH]; simpl.
  - now destruct (is_brace c).
  - destruct (is_brace x) eqn:Hx; simpl; rewrite IH.
    + destruct (Ascii.eqb_spec x c) as [->|Hne].
      * rewrite Hx. lia.
      * destruct (is_brace c); lia.
    + destruct (Ascii.eqb_spec x c) as [->|Hne].
      * rewrite Hx. reflexivity.
      * destruct (is_brace c); lia.
Qed.

(** ** ToolFormatter.toLangChainDescription *)

(** C8: the description handed to the agent framework is the tool's
    description as it is (closed by a full stop when it has none), the fixed
    sentence, and the input-schema text with each opening and each closing
    brace written twice and every other character unchanged; read back as
    template text the schema part holds no placeholder and stands for the
    schema text itself. *)
Theorem toLangChainDescription_escapes_schema :
  forall description inputSchemaString : string,
    toLangChainDescription description inputSchemaString
    = description
      ++ (if String.eqb (Str.slice_last description) "." then "" else ".")
      ++ schema_sentence
      ++ double_braces inputSchemaString
    /\ literal_text (double_braces inputSchemaString) = Some inputSchemaString
    /\ Str.count "{" (double_braces inputSchemaString)
       = 2 * Str.count "{" inputSchemaString
    /\ Str.count "}" (double_braces inputSchemaString)
       = 2 * Str.count "}" inputSchemaString.
Proof.
  intros description inputSchemaString. repeat split.
  - unfold toLangChainDescription, schema_sentence.
    rewrite replaceAll_braces.
    destruct (String.eqb (Str.slice_last description) "."); simpl;
      now rewrite ?append_assoc.
  - apply literal_text_double_braces.
  - now rewrite count_double_braces.
  - now rewrite count_double_braces.
Qed.

(** ** BaseChain.generate *)

Lemma filter_drops_new (h : Handler) (hs : list Handler) :
  Forall (fun h' => h' < h) hs ->
  filter (fun h' => negb (Nat.eqb h' h)) (hs ++ [h]) = hs.
Proof.
  induction 1 as [|x hs Hx _ IH]; simpl.
  - now rewrite Nat.eqb_refl.
  - destruct (Nat.eqb_spec x h) as [->|_]; [lia|]. simpl. now rewrite IH.
Qed.

Lemma filter_keeps_known (h : Handler) (hs : list Handler) :
  Forall (fun h' => h' < h) hs ->
  filter (fun h' => negb (Nat.eqb h' h)) hs = hs.
Proof.
  induction 1 as [|x hs Hx _ IH]; simpl; [reflexivity|].
  destruct (Nat.eqb_spec x h) as [->|_]; [lia|]. simpl. now rewrite IH.
Qed.

Ltac run_generate :=
  unfold generate, chain_call, new_ConsoleCallbackHandler, library; simpl.

(** One call of [generate] is one call of the chain, with the chain's values. *)
Lemma generate_calls_once {Input : Type} (this : BaseChain Input)
  (input : Input) (s : ChainState) :
  calls (snd (generate this input s))
  = (calls s ++ [getChainValues this input])%list.
Proof.
  run_generate.
  destruct (chain this (getChainValues this input)) as [err|values]; simpl.
  - now destruct (logToConsole this).
  - destruct (values_get (getOutputKey this) values) as [text|].
    + destruct (String.eqb text ""); now destruct (logToConsole this).
    + now destruct (logToConsole this).
Qed.

(** A call that returns leaves the callback manager as it found it. *)
Lemma generate_returns_detached {Input : Type} (this : BaseChain Input)
  (input : Input) (s s' : ChainState) (text : string) :
  handlers_known s ->
  generate this input s = (inr text, s') ->
  handlers s' = handlers s.
Proof.
  unfold handlers_known. intros Hknown. run_generate.
  destruct (chain this (getChainValues this input)) as [err|values];
    [discriminate|].
  destruct (values_get (getOutputKey this) values) as [t|]; [|discriminate].
  destruct (String.eqb t ""); [discriminate|].
  intros [= _ <-].
  destruct (logToConsole this); simpl.
  - now apply filter_drops_new.
  - reflexivity.
Qed.

(** A call that fails under verbose logging leaves its handler behind. *)
Lemma generate_fails_attached {Input : Type} (this : BaseChain Input)
  (input : Input) (s s' : ChainState) (e : exn) :
  logToConsole this = true ->
  generate this input s = (inl e, s') ->
  handlers s' = (handlers s ++ [created s])%list.
Proof.
  intros Hlog. run_generate. rewrite Hlog.
  destruct (chain this (getChainValues this input)) as [err|values].
  - now intros [= _ <-].
  - destruct (values_get (getOutputKey this) values) as [t|].
    + destruct (String.eqb t ""); [|discriminate]. now intros [= _ <-].
    + now intros [= _ <-].
Qed.

(** C6: under verbose logging [generate] attaches a handler of its own and
    calls the chain exactly once; it detaches the handler when it returns a
    response, but when the chain call fails or the output field is missing
    the handler is still on the callback manager afterwards. *)
Theorem generate_handler_attachment :
  forall (Input : Type) (this : BaseChain Input) (input : Input)
         (s : ChainState),
    logToConsole this = true ->
    handlers_known s ->
    calls (snd (generate this input s))
    = (calls s ++ [getChainValues this input])%list
    /\ match fst (generate this input s) with
       | inr _ => handlers (snd (generate this input s)) = handlers s
       | inl _ =>
           handlers (snd (generate this input s))
           = (handlers s ++ [created s])%list
       end.
Proof.
  intros Input this input s Hlog Hknown. split.
  - apply generate_calls_once.
  - destruct (generate this input s) as [[e|text] s'] eqn:Hrun; simpl.
    + eapply generate_fails_attached; eassumption.
    + eapply generate_returns_detached; eassumption.
Qed.

(** C7: when the response has no value under the chain's output key,
    [generate] throws and returns nothing; the message names the key, and
    where it means to show the response it holds the text [[object Object]]
    whatever the response was. *)
Theorem generate_missing_field_message :
  forall (Input : Type) (this : BaseChain Input) (input : Input)
         (s : ChainState) (responseValues : ChainValues),
    chain this (getChainValues this input) = inr responseValues ->
    values_get (getOutputKey this) responseValues = None ->
    fst (generate this input s)
    = inl (Error ("value " ++ Str.quoted (getOutputKey this)
                  ++ " not returned from chain call, got values: [object Object]")).
Proof.
  intros Input this input s responseValues Hcall Hmissing.
  run_generate. rewrite Hcall, Hmissing. reflexivity.
Qed.

(** C10: a response whose output field is the empty string is treated as
    one without the field: [generate] throws the same error and does not
    return the empty string. *)
Theorem generate_empty_string_is_missing :
  forall (Input : Type) (this : BaseChain Input) (input : Input)
         (s : ChainState) (responseValues : ChainValues),
    chain this (getChainValues this input) = inr responseValues ->
    values_get (getOutputKey this) responseValues = Some "" ->
    fst (generate this input s)
    = inl (not_returned (getOutputKey this) responseValues)
    /\ not_returned (getOutputKey this) responseValues
       = Error ("value " ++ Str.quoted (getOutputKey this)
                ++ " not returned from chain call, got values: [object Object]").
Proof.
  intros Input this input s responseValues Hcall Hempty. split.
  - run_generate. rewrite Hcall, Hempty. reflexivity.
  - reflexivity.
Qed.

(** ** The schemas *)

Lemma json_induction (P : json -> Prop) :
  P JNull ->
  (forall b, P (JBool b)) ->
  (forall n, P (JNum n)) ->
  (forall s, P (JStr s)) ->
  (forall items, Forall P items -> P (JArr items)) ->
  (forall members, Forall (fun kv => P (snd kv)) members -> P (JObj members)) ->
  forall v, P v.
Proof.
  intros Hnull Hbool Hnum Hstr Harr Hobj.
  fix IH 1. intros [ | b | n | s | items | members].
  - exact Hnull.
  - apply Hbool.
  - apply Hnum.
  - apply Hstr.
  - apply Harr. induction items as [|x items IHitems]; constructor.
    + apply IH.
    + exact IHitems.
  - apply Hobj. induction members as [|[k x] members IHmembers]; constructor.
    + apply IH.
    + exact IHmembers.
Qed.

Lemma mergeArray_accepted (results : list z.ParseReturn) :
  Forall accepted results -> exists vs, z.mergeArray results = inr vs.
Proof.
  induction 1 as [|r results [v ->] _ [vs IH]]; simpl.
  - now exists [].
  - rewrite IH. now exists (v :: vs).
Qed.

Lemma mergeObject_accepted (pairs : list (string * z.ParseReturn)) :
  Forall (fun kr => accepted (snd kr)) pairs ->
  forall final, exists o, z.mergeObject final pairs = inr o.
Proof.
  induction 1 as [|[k r] pairs [v Hv] _ IH]; intros final; simpl in *.
  - now exists final.
  - subst r. apply IH.
Qed.

Lemma parse_items_accepted (element : z.path -> json -> z.ParseReturn)
  (items : list json) :
  Forall (fun x => forall p, accepted (element p x)) items ->
  forall p i, Forall accepted (z.parse_items element p i items).
Proof.
  induction 1 as [|x items Hx _ IH]; intros p i; simpl; constructor.
  - apply Hx.
  - apply IH.
Qed.

Lemma parse_members_accepted (element : z.path -> json -> z.ParseReturn)
  (members : object) :
  Forall (fun kv => forall p, accepted (element p (snd kv))) members ->
  forall p,
    Forall (fun kr => accepted (snd kr)) (z.parse_members element p members).
Proof.
  induction 1 as [|[k x] members Hx _ IH]; intros p; simpl; constructor.
  - apply Hx.
  - apply IH.
Qed.

Lemma JsonValueSchema_on_unfold (p : z.path) (v : json) :
  JsonValueSchema_on p v
  = z.union
      [JsonPrimitiveSchema;
       z.array_of JsonValueSchema_on;
       z.record_of JsonValueSchema_on] p (Some v).
Proof. destruct v; reflexivity. Qed.

(** The recursive schema is the union the source declares. *)
Lemma JsonValueSchema_declared (p : z.path) (data : option json) :
  JsonValueSchema p data
  = z.union
      [JsonPrimitiveSchema; z.array JsonValueSchema; z.record JsonValueSchema]
      p data.
Proof.
  destruct data as [v|]; [|reflexivity].
  unfold JsonValueSchema. apply JsonValueSchema_on_unfold.
Qed.

(** Every JSON value is a [JsonValue]. *)
Lemma JsonValueSchema_accepts (v : json) :
  forall p, accepted (JsonValueSchema_on p v).
Proof.
  induction v as [ | b | n | s | items IH | members IH] using json_induction;
    intros p; rewrite JsonValueSchema_on_unfold;
    try (eexists; reflexivity).
  - destruct (mergeArray_accepted (parse_items_accepted _ IH p 0)) as [vs Hvs].
    exists (JArr vs). cbn. unfold z.array_of. now rewrite Hvs.
  - destruct (mergeObject_accepted (parse_members_accepted _ IH p) [])
      as [o Ho].
    exists (JObj o). cbn. unfold z.record_of. now rewrite Ho.
Qed.

(** Every object is a [JsonObject]; nothing else is. *)
Lemma JsonObjectSchema_object (p : z.path) (members : object) :
  exists o, JsonObjectSchema p (Some (JObj members)) = inr (JObj o).
Proof.
  unfold JsonObjectSchema, z.record, z.record_of.
  destruct (mergeObject_accepted
              (pairs := z.parse_members
                          (fun p v => JsonValueSchema p (Some v)) p members))
    with (final := @nil (string * json)) as [o Ho].
  - apply parse_members_accepted.
    apply Forall_forall. intros kv _ q. apply JsonValueSchema_accepts.
  - exists o. now rewrite Ho.
Qed.

Lemma JsonObjectSchema_inr (p : z.path) (data : option json) (v : json) :
  JsonObjectSchema p data = inr v ->
  exists members o, data = Some (JObj members) /\ v = JObj o.
Proof.
  unfold JsonObjectSchema, z.record, z.record_of.
  destruct data as [[ | | | | | members]|]; try discriminate.
  destruct (z.mergeObject _ _) as [e|o]; [discriminate|].
  intros [= <-]. now exists members, o.
Qed.

Lemma string_inr (p : z.path) (data : option json) (v : json) :
  z.string p data = inr v -> exists s, data = Some (JStr s) /\ v = JStr s.
Proof.
  unfold z.string, z.of_type.
  destruct data as [[ | | | s | | ]|]; try discriminate.
  intros [= <-]. now exists s.
Qed.

Lemma mergeObject_cons_inr (final o : object) (k : string)
  (r : z.ParseReturn) (rest : list (string * z.ParseReturn)) :
  z.mergeObject final ((k, r) :: rest) = inr o ->
  exists v,
    r = inr v
    /\ z.mergeObject
         (if String.eqb k "__proto__" then final else Obj.set k v final) rest
       = inr o.
Proof.
  simpl. destruct r as [e|v].
  - destruct (z.mergeObject final rest); discriminate.
  - intros H. now exists v.
Qed.

(** One refused field refuses the object, and its issues are reported. *)
Lemma mergeObject_refused (k : string) (e : list z.ZodIssue)
  (pairs : list (string * z.ParseReturn)) :
  In (k, inl e) pairs ->
  forall final, exists es, z.mergeObject final pairs = inl es /\ incl e es.
Proof.
  induction pairs as [|[k' r] pairs IH]; intros Hin final; [contradiction|].
  destruct Hin as [[= -> ->]|Hin]; simpl.
  - destruct (z.mergeObject final pairs) as [es|_].
    + exists (e ++ es)%list. split; [reflexivity|]. now apply incl_appl.
    + exists e. split; [reflexivity|]. apply incl_refl.
  - destruct r as [e'|v].
    + destruct (IH Hin final) as [es [-> Hes]].
      exists (e' ++ es)%list. split; [reflexivity|]. now apply incl_appr.
    + apply IH, Hin.
Qed.

(** ** GeneratedToolSchema *)

(** [parse] is the declared schema run at the root: its object, or its
    issues in a [ZodError]. *)
Lemma GeneratedToolSchema_parse_declared (data : json) :
  match GeneratedToolSchema [] (Some data) with
  | inr v =>
      exists generatedTool,
        GeneratedToolSchema_parse data = inr generatedTool
        /\ v = JObj generatedTool
  | inl issues => GeneratedToolSchema_parse data = inl (ZodError issues)
  end.
Proof.
  unfold GeneratedToolSchema, z.object, GeneratedToolSchema_parse.
  destruct (z.object_fields GeneratedToolShape [] (Some data)) as [e|g].
  - reflexivity.
  - now exists g.
Qed.

Lemma GeneratedToolSchema_accepts (members : object) (n d : string)
  (i o : object) (c : string) :
  GeneratedTool_shaped members n d i o c ->
  exists i' o',
    GeneratedToolSchema_parse (JObj members) = inr (generated n d i' o' c).
Proof.
  intros (Hn & Hd & Hi & Ho & Hc).
  destruct (JsonObjectSchema_object [z.Key "inputSchema"] i) as [i' Hi'].
  destruct (JsonObjectSchema_object [z.Key "outputSchema"] o) as [o' Ho'].
  exists i', o'.
  unfold GeneratedToolSchema_parse, z.object_fields, z.parse_shape.
  cbn [map GeneratedToolShape fst snd app].
  rewrite Hn, Hd, Hi, Ho, Hc, Hi', Ho'. reflexivity.
Qed.

Lemma GeneratedToolSchema_inr (data : json) (g : object) :
  GeneratedToolSchema_parse data = inr g ->
  exists members n d i o c i' o',
    data = JObj members
    /\ GeneratedTool_shaped members n d i o c
    /\ g = generated n d i' o' c.
Proof.
  unfold GeneratedToolSchema_parse, z.object_fields, z.parse_shape.
  destruct data as [ | | | | | members]; try discriminate.
  cbn [map GeneratedToolShape fst snd app].
  destruct (z.mergeObject _ _) as [e|g'] eqn:Hmerge; [discriminate|].
  intros [= ->].
  apply mergeObject_cons_inr in Hmerge as (vn & Hn & Hmerge).
  apply mergeObject_cons_inr in Hmerge as (vd & Hd & Hmerge).
  apply mergeObject_cons_inr in Hmerge as (vi & Hi & Hmerge).
  apply mergeObject_cons_inr in Hmerge as (vo & Ho & Hmerge).
  apply mergeObject_cons_inr in Hmerge as (vc & Hc & Hmerge).
  apply string_inr in Hn as (n & Hn & ->).
  apply string_inr in Hd as (d & Hd & ->).
  apply string_inr in Hc as (c & Hc & ->).
  apply JsonObjectSchema_inr in Hi as (i & i' & Hi & ->).
  apply JsonObjectSchema_inr in Ho as (o & o' & Ho & ->).
  exists members, n, d, i, o, c, i', o'.
  split; [reflexivity|]. split; [now repeat split|].
  cbn in Hmerge. now injection Hmerge as <-.
Qed.

Lemma GeneratedToolSchema_missing (members : object) (k : string) :
  In k required_fields ->
  Obj.get k members = None ->
  exists issues,
    GeneratedToolSchema_parse (JObj members) = inl (ZodError issues)
    /\ In (z.invalid_type (expected_type k) z.t_undefined [z.Key k]) issues.
Proof.
  intros Hk Hget.
  unfold GeneratedToolSchema_parse, z.object_fields.
  destruct (@mergeObject_refused k
              [z.invalid_type (expected_type k) z.t_undefined [z.Key k]]
              (z.parse_shape GeneratedToolShape [] members)) with (final := @nil (string * json))
    as [es [Hes Hincl]].
  - unfold z.parse_shape. cbn [map GeneratedToolShape fst snd app].
    simpl in Hk.
    destruct Hk as [<-|[<-|[<-|[<-|[<-|[]]]]]]; rewrite ?Hget; cbn; tauto.
  - rewrite Hes. exists es. split; [reflexivity|].
    apply Hincl. now left.
Qed.

(** A field of another type is refused as it is: nothing is converted. *)
Lemma GeneratedToolSchema_mistyped (members : object) (k : string) (v : json) :
  In k required_fields ->
  Obj.get k members = Some v ->
  z.getParsedType (Some v) <> expected_type k ->
  exists issues,
    GeneratedToolSchema_parse (JObj members) = inl (ZodError issues)
    /\ In (z.invalid_type (expected_type k) (z.getParsedType (Some v))
              [z.Key k]) issues.
Proof.
  intros Hk Hget Htype.
  unfold GeneratedToolSchema_parse, z.object_fields.
  destruct (@mergeObject_refused k
              [z.invalid_type (expected_type k) (z.getParsedType (Some v))
                 [z.Key k]]
              (z.parse_shape GeneratedToolShape [] members))
    with (final := @nil (string * json)) as [es [Hes Hincl]].
  - unfold z.parse_shape. cbn [map GeneratedToolShape fst snd app].
    simpl in Hk.
    destruct Hk as [<-|[<-|[<-|[<-|[<-|[]]]]]]; rewrite ?Hget;
      destruct v; cbn in *; try congruence; tauto.
  - rewrite Hes. exists es. split; [reflexivity|].
    apply Hincl. now left.
Qed.

(** The formatter reads every validated tool at its declared type. *)
Lemma as_BaseTool_validated (s n d : string) (i o : object) (c : string) :
  as_BaseTool (Obj.spread [("slug", JStr s)] (generated n d i o c))
  = Some {| slug := s; name := n; description := d;
            inputSchema := Some i; outputSchema := Some o; code := c |}.
Proof. reflexivity. Qed.

Section Properties.

Context {lib : Libraries}.

(** ** Lookup tools *)

(** C5: the call of a lookup tool never throws.  [NpmInfo] answers with the
    readme, with [No details available] when the package has none, or with
    [Error: ] and the cause when the registry fails; [NpmSearch] answers
    with the serialized results, with [Error: no results] when there are
    none, or with [Error: ] and the cause when the registry fails. *)
Theorem lookup_tools_never_raise :
  forall query : string,
    (exists text,
        _call NpmInfo query = inr text
        /\ ((exists doc,
                getPackument query = inr {| readme := Some doc |}
                /\ doc <> "" /\ text = doc)
            \/ (exists results,
                   getPackument query = inr results
                   /\ (readme results = None \/ readme results = Some "")
                   /\ text = "No details available")
            \/ (exists err,
                   getPackument query = inl err
                   /\ text = "Error: " ++ Error_toString err)))
    /\ (exists text,
           _call NpmSearch query = inr text
           /\ ((searchPackages query = inr []
                /\ text = "Error: no results")
               \/ (exists r rest,
                      searchPackages query = inr (r :: rest)
                      /\ text = JSON_stringify
                                  (JArr (map search_info (r :: rest))))
               \/ (exists err,
                      searchPackages query = inl err
                      /\ text = "Error: " ++ Error_toString err))).
Proof.
  intros query. split; simpl.
  - unfold NpmInfo_call, readme_or.
    destruct (getPackument query) as [err|[[doc|]]] eqn:Hget.
    + eexists. split; [reflexivity|]. right. right. now exists err.
    + simpl. destruct (String.eqb_spec doc "") as [->|Hdoc].
      * eexists. split; [reflexivity|]. right. left.
        eexists. split; [reflexivity|]. split; [now right | reflexivity].
      * eexists. split; [reflexivity|]. left. now exists doc.
    + eexists. split; [reflexivity|]. right. left.
      eexists. split; [reflexivity|]. split; [now left | reflexivity].
  - unfold NpmSearch_call.
    destruct (searchPackages query) as [err|[|r rest]] eqn:Hsearch.
    + eexists. split; [reflexivity|]. right. right. now exists err.
    + eexists. split; [reflexivity|]. now left.
    + eexists. split; [reflexivity|]. right. left. now exists r, rest.
Qed.

(** ** Toolkit.generateTool *)


(** ** Toolkit.parseResponse *)

Lemma parseResponse_returns (raw : string) (members : object)
  (n d : string) (i o : object) (c : string) :
  JSON.parse raw = Some (JObj members) ->
  GeneratedTool_shaped members n d i o c ->
  formats c ->
  exists i' o' langChainCode,
    parseResponse raw
    = inr (formatted_tool (slugify n) n d i' o' c langChainCode).
Proof.
  intros Hparse Hshape (template & formatted & Hread & Hformat & Hrender).
  destruct (GeneratedToolSchema_accepts Hshape) as (i' & o' & Hvalid).
  unfold parseResponse. rewrite Hparse, Hvalid.
  cbn [bind generated Obj.get String.eqb Ascii.eqb Bool.eqb slugify_value].
  unfold new_ToolFormatter. rewrite Hread.
  cbn [library bind]. unfold toolWithFormats, toLangChain.
  cbn [tool langchainTemplate].
  cbn. rewrite Hformat. cbn.
  match goal with
  | |- context [Handlebars_compile template ?ctx] =>
      destruct (Hrender ctx) as [rendered ->]
  end.
  exists i', o', rendered. reflexivity.
Qed.

Lemma parseResponse_inr (raw : string) (made : object) :
  parseResponse raw = inr made ->
  exists members n d i o c i' o' langChainCode,
    JSON.parse raw = Some (JObj members)
    /\ GeneratedTool_shaped members n d i o c
    /\ made = formatted_tool (slugify n) n d i' o' c langChainCode.
Proof.
  unfold parseResponse.
  destruct (JSON.parse raw) as [data|]; [|discriminate].
  destruct (GeneratedToolSchema_parse data) as [e|g] eqn:Hvalid;
    [discriminate|].
  apply GeneratedToolSchema_inr in Hvalid
    as (members & n & d & i & o & c & i' & o' & -> & Hshape & ->).
  cbn [bind generated Obj.get String.eqb Ascii.eqb Bool.eqb slugify_value].
  unfold new_ToolFormatter.
  destruct (readFileSync _) as [e|template]; [discriminate|].
  cbn [library bind]. unfold toolWithFormats, toLangChain.
  cbn [tool langchainTemplate]. cbn.
  destruct (format c) as [e|formatted]; [discriminate|]. cbn.
  destruct (Handlebars_compile _ _) as [e|rendered]; [discriminate|].
  cbn. intros [= <-].
  now exists members, n, d, i, o, c, i', o', rendered.
Qed.

Lemma csv_response_parsed :
  JSON.parse csv_response
  = Some (JObj (generated "CSV Parser" "Parses CSV." [] []
                  "function f(x){return x}")).
Proof. vm_compute. reflexivity. Qed.

Lemma response_name_inr (raw : string) (made : object) :
  parseResponse raw = inr made ->
  exists n,
    response_name raw = Some n
    /\ Obj.get "slug" made = Some (JStr (slugify n)).
Proof.
  intros Hrun.
  apply parseResponse_inr in Hrun
    as (members & n & d & i & o & c & i' & o' & code & Hparse & Hshape & ->).
  exists n. unfold response_name. rewrite Hparse.
  destruct Hshape as (-> & _). now split.
Qed.

(** C2: a response that is JSON of the shape of a generated tool gives a
    tool whose slug is [slugify] of the response's name, so two responses
    with the same name give the same slug whatever their other fields; the
    response named [CSV Parser] gives the slug that [slugify] makes of
    [CSV Parser], which the slug library documents as [csv-parser]. *)
Theorem parseResponse_slug_from_name :
  (forall (raw : string) (members : object) (n d : string) (i o : object)
          (c : string),
      JSON.parse raw = Some (JObj members) ->
      GeneratedTool_shaped members n d i o c ->
      formats c ->
      exists made,
        parseResponse raw = inr made
        /\ Obj.get "slug" made = Some (JStr (slugify n)))
  /\ (forall (raw1 raw2 : string) (made1 made2 : object),
         parseResponse raw1 = inr made1 ->
         parseResponse raw2 = inr made2 ->
         response_name raw1 = response_name raw2 ->
         Obj.get "slug" made1 = Obj.get "slug" made2)
  /\ (slugify "CSV Parser" = "csv-parser" ->
      formats "function f(x){return x}" ->
      exists made,
        parseResponse csv_response = inr made
        /\ Obj.get "slug" made = Some (JStr "csv-parser")).
Proof.
  split; [|split].
  - intros raw members n d i o c Hparse Hshape Hformats.
    destruct (parseResponse_returns raw Hparse Hshape Hformats)
      as (i' & o' & code & Hrun).
    eexists. split; [exact Hrun | reflexivity].
  - intros raw1 raw2 made1 made2 Hrun1 Hrun2 Hname.
    apply response_name_inr in Hrun1 as (n1 & Hn1 & ->).
    apply response_name_inr in Hrun2 as (n2 & Hn2 & ->).
    rewrite Hn1, Hn2 in Hname. now injection Hname as ->.
  - intros Hslug Hformats.
    destruct (parseResponse_returns csv_response csv_response_parsed
                (n := "CSV Parser") (d := "Parses CSV.") (i := []) (o := [])
                (c := "function f(x){return x}"))
      as (i' & o' & code & Hrun); [now repeat split | exact Hformats |].
    eexists. split; [exact Hrun|]. cbn. now rewrite Hslug.
Qed.

(** C3: on text that is not JSON [parseResponse] throws the error whose
    message is [response could not be parsed as JSON: ] followed by the
    text, and no other; so it does on [not json]. *)
Theorem parseResponse_rejects_invalid_json :
  (forall raw : string,
      JSON.parse raw = None ->
      parseResponse raw
      = inl (Error ("response could not be parsed as JSON: " ++ raw))
      /\ Str.includes ("response could not be parsed as JSON: " ++ raw) raw
         = true)
  /\ parseResponse "not json"
     = inl (Error "response could not be parsed as JSON: not json")
  /\ Str.includes "response could not be parsed as JSON: not json" "not json"
     = true.
Proof.
  split; [|split].
  - intros raw Hparse. split.
    + unfold parseResponse. now rewrite Hparse.
    + apply includes_suffix.
  - reflexivity.
  - reflexivity.
Qed.

(** C4: a response object without one of the five required fields makes
    [parseResponse] throw a [ZodError] with an issue at that field (the
    type asked for, [undefined] received); so does a field of another type,
    which is not converted; and a tool that is returned has all five fields,
    the strings being the response's own. *)
Theorem parseResponse_rejects_missing_field :
  (forall (raw : string) (members : object) (k : string),
      JSON.parse raw = Some (JObj members) ->
      In k required_fields ->
      Obj.get k members = None ->
      exists issues,
        parseResponse raw = inl (ZodError issues)
        /\ In (z.invalid_type (expected_type k) z.t_undefined [z.Key k])
              issues)
  /\ (forall (raw : string) (members : object) (k : string) (v : json),
         JSON.parse raw = Some (JObj members) ->
         In k required_fields ->
         Obj.get k members = Some v ->
         z.getParsedType (Some v) <> expected_type k ->
         exists issues,
           parseResponse raw = inl (ZodError issues)
           /\ In (z.invalid_type (expected_type k) (z.getParsedType (Some v))
                    [z.Key k]) issues)
  /\ (forall (raw : string) (made : object),
         parseResponse raw = inr made ->
         exists members n d i o c i' o',
           JSON.parse raw = Some (JObj members)
           /\ GeneratedTool_shaped members n d i o c
           /\ GeneratedTool_shaped made n d i' o' c).
Proof.
  split; [|split].
  - intros raw members k Hparse Hk Hget.
    destruct (GeneratedToolSchema_missing members Hk Hget)
      as (issues & Hvalid & Hissue).
    exists issues. split; [|exact Hissue].
    unfold parseResponse. now rewrite Hparse, Hvalid.
  - intros raw members k v Hparse Hk Hget Htype.
    destruct (GeneratedToolSchema_mistyped members Hk Hget Htype)
      as (issues & Hvalid & Hissue).
    exists issues. split; [|exact Hissue].
    unfold parseResponse. now rewrite Hparse, Hvalid.
  - intros raw made Hrun.
    apply parseResponse_inr in Hrun
      as (members & n & d & i & o & c & i' & o' & code & Hparse & Hshape & ->).
    exists members, n, d, i, o, c, i', o'.
    split; [exact Hparse|]. split; [exact Hshape|]. now repeat split.
Qed.

(** C9: validation keeps the five fields of the shape and nothing else of
    the response, so the tool that is returned has the seven fields of a
    tool, its slug being [slugify] of the name, whatever other keys (a
    [slug] among them) the response carried. *)
Theorem parseResponse_ignores_response_slug :
  forall (raw : string) (members : object) (n d : string) (i o : object)
         (c : string),
    JSON.parse raw = Some (JObj members) ->
    GeneratedTool_shaped members n d i o c ->
    formats c ->
    (exists generatedTool,
        GeneratedToolSchema_parse (JObj members) = inr generatedTool
        /\ Obj.keys generatedTool = required_fields)
    /\ (exists made,
           parseResponse raw = inr made
           /\ Obj.keys made = tool_fields
           /\ Obj.get "slug" made = Some (JStr (slugify n))).
Proof.
  intros raw members n d i o c Hparse Hshape Hformats. split.
  - destruct (GeneratedToolSchema_accepts Hshape) as (i' & o' & Hvalid).
    eexists. split; [exact Hvalid | reflexivity].
  - destruct (parseResponse_returns raw Hparse Hshape Hformats)
      as (i' & o' & code & Hrun).
    eexists. split; [exact Hrun|]. now split.
Qed.

End Properties.

(** ** The program at work *)

Lemma demo_formats (c : string) : formats (lib := Demo.libraries) c.
Proof.
  exists (resolveFromSrc (lib := Demo.libraries) "templates/langchain-tool.hbs"), c.
  split; [reflexivity|]. split; [reflexivity|].
  intros context. cbn. unfold Demo.render_class.
  destruct (Obj.get "className" context) as [[ | | | | | ]|];
    eexists; reflexivity.
Defined.

Lemma parseResponse_slug_from_name_witness :
  slugify (Libraries := Demo.libraries) "CSV Parser" = "csv-parser"
  /\ formats (lib := Demo.libraries) "function f(x){return x}"
  /\ exists made,
       parseResponse (lib := Demo.libraries) csv_response = inr made
       /\ Obj.get "slug" made = Some (JStr "csv-parser").
Proof.
  split; [reflexivity|]. split; [apply demo_formats|].
  apply (proj2 (proj2 (@parseResponse_slug_from_name Demo.libraries))).
  - reflexivity.
  - apply demo_formats.
Defined.

Lemma parseResponse_rejects_invalid_json_witness :
  JSON.parse Demo.cut_response = None
  /\ parseResponse (lib := Demo.libraries) Demo.cut_response
     = inl (Error ("response could not be parsed as JSON: "
                   ++ Demo.cut_response))
  /\ Str.includes
       ("response could not be parsed as JSON: " ++ Demo.cut_response)
       Demo.cut_response = true.
Proof.
  split; [reflexivity|].
  apply (proj1 (@parseResponse_rejects_invalid_json Demo.libraries)).
  reflexivity.
Defined.

Lemma parseResponse_rejects_missing_field_witness :
  JSON.parse Demo.codeless_response = Some (JObj Demo.codeless_members)
  /\ In "code" required_fields
  /\ Obj.get "code" Demo.codeless_members = None
  /\ exists issues,
       parseResponse (lib := Demo.libraries) Demo.codeless_response
       = inl (ZodError issues)
       /\ In (z.invalid_type z.t_string z.t_undefined [z.Key "code"]) issues.
Proof.
  assert (Hparse : JSON.parse Demo.codeless_response
                   = Some (JObj Demo.codeless_members)) by reflexivity.
  assert (Hk : In "code" required_fields) by (simpl; tauto).
  split; [exact Hparse|]. split; [exact Hk|]. split; [reflexivity|].
  apply (proj1 (@parseResponse_rejects_missing_field Demo.libraries)
           Demo.codeless_response Demo.codeless_members "code" Hparse Hk).
  reflexivity.
Defined.

Lemma parseResponse_ignores_response_slug_witness :
  JSON.parse Demo.overriding_response = Some (JObj Demo.overriding_members)
  /\ Obj.get "slug" Demo.overriding_members = Some (JStr "evil")
  /\ exists made,
       parseResponse (lib := Demo.libraries) Demo.overriding_response
       = inr made
       /\ Obj.keys made = tool_fields
       /\ Obj.get "slug" made = Some (JStr "csv-parser").
Proof.
  assert (Hparse : JSON.parse Demo.overriding_response
                   = Some (JObj Demo.overriding_members)) by reflexivity.
  split; [exact Hparse|]. split; [reflexivity|].
  apply (@parseResponse_ignores_response_slug Demo.libraries
           Demo.overriding_response Demo.overriding_members
           "CSV Parser" "Parses CSV." [] [] "function f(x){return x}" Hparse).
  - repeat split.
  - apply demo_formats.
Defined.

Lemma generate_handler_attachment_witness :
  logToConsole Demo.stray_chain = true
  /\ handlers_known Demo.fresh
  /\ calls (snd (generate Demo.stray_chain JNull Demo.fresh))
     = [[("generateToolInput", "null")]]
  /\ handlers (snd (generate Demo.stray_chain JNull Demo.fresh)) = [0].
Proof.
  assert (Hknown : handlers_known Demo.fresh) by constructor.
  split; [reflexivity|]. split; [exact Hknown|].
  exact (@generate_handler_attachment json Demo.stray_chain JNull Demo.fresh
           eq_refl Hknown).
Defined.

Lemma generate_missing_field_message_witness :
  chain Demo.stray_chain (getChainValues Demo.stray_chain JNull)
  = inr [("answer", "42")]
  /\ values_get (getOutputKey Demo.stray_chain) [("answer", "42")] = None
  /\ fst (generate Demo.stray_chain JNull Demo.fresh)
     = inl (Error ("value " ++ Str.quoted "text"
                   ++ " not returned from chain call, got values: [object Object]")).
Proof.
  split; [reflexivity|]. split; [reflexivity|].
  exact (@generate_missing_field_message json Demo.stray_chain JNull
           Demo.fresh [("answer", "42")] eq_refl eq_refl).
Defined.

Lemma generate_empty_string_is_missing_witness :
  chain Demo.mute_chain (getChainValues Demo.mute_chain JNull)
  = inr [("text", "")]
  /\ values_get (getOutputKey Demo.mute_chain) [("text", "")] = Some ""
  /\ fst (generate Demo.mute_chain JNull Demo.fresh)
     = inl (Error ("value " ++ Str.quoted "text"
                   ++ " not returned from chain call, got values: [object Object]")).
Proof.
  split; [reflexivity|]. split; [reflexivity|].
  exact (proj1 (@generate_empty_string_is_missing json Demo.mute_chain JNull
                  Demo.fresh [("text", "")] eq_refl eq_refl)).
Defined.

(** The handler of a failed call is still there, and the next call adds
    its own. *)
Example stray_chain_keeps_handler :
  generate Demo.stray_chain JNull Demo.fresh
  = (inl (Error ("value " ++ Str.quoted "text"
                   ++ " not returned from chain call, got values: [object Object]")),
     {| handlers := [0]; created := 1;
        calls := [[("generateToolInput", "null")]] |})
  /\ handlers (snd (generate Demo.stray_chain JNull
                      (snd (generate Demo.stray_chain JNull Demo.fresh))))
     = [0; 1].
Proof. split; reflexivity. Qed.

Example failing_chain_keeps_handler :
  generate Demo.failing_chain JNull Demo.fresh
  = (inl (Thrown {| err_name := "Error";
                    err_message := "Request failed with status code 429" |}),
     {| handlers := [0]; created := 1;
        calls := [[("generateToolInput", "null")]] |}).
Proof. reflexivity. Qed.

(** The message of the missing field does not show what was received. *)
Example stray_chain_message_hides_values :
  forall message,
    fst (generate Demo.stray_chain JNull Demo.fresh) = inl (Error message) ->
    Str.includes message "text" = true
    /\ Str.includes message "answer" = false
    /\ Str.includes message "42" = false.
Proof. intros message [= <-]. now vm_compute. Qed.

Example JSON_parse_values :
  JSON.parse (Str.text " [1, -2.5e+3, true, null, {'a': [], 'a': 'x'}] ")
  = Some (JArr [JNum "1"; JNum "-2.5e+3"; JBool true; JNull;
                JObj [("a", JStr "x")]])
  /\ JSON.parse (Str.text "'\u0041\n'") = Some (JStr ("A" ++ newline))
  /\ JSON.parse "01" = None
  /\ JSON.parse "[1,]" = None
  /\ JSON.parse (Str.text "{'a':1,}") = None
  /\ JSON.parse "{a:1}" = None
  /\ JSON.parse "1 2" = None
  /\ JSON.parse "" = None.
Proof. repeat split. Qed.

(** A name that is a number stays a number, and is refused. *)
Example number_is_not_a_name :
  parseResponse (lib := Demo.libraries)
    (Str.text "{'name':3,'description':'d','inputSchema':{},'outputSchema':{},'code':'c'}")
  = inl (ZodError [z.invalid_type z.t_string z.t_number [z.Key "name"]]).
Proof. reflexivity. Qed.

(** Text between quotes is JSON, a string: the schema refuses it. *)
Example quoted_text_is_json :
  parseResponse (lib := Demo.libraries) (Str.quoted "not json")
  = inl (ZodError [z.invalid_type z.t_object z.t_string []]).
Proof. reflexivity. Qed.

Example toolkit_needs_keys :
  new_Toolkit (lib := Demo.libraries) None (fun _ => None)
  = inl (Error "OpenAI API key not defined in params or environment")
  /\ new_Toolkit (lib := Demo.libraries)
       (Some {| toolkit_openAIApiKey := Some "k1";
                toolkit_serpApiKey := None;
                toolkit_logToConsole := None |}) (fun _ => None)
     = inl (Error "Serp API key not defined in params or environment")
  /\ exists toolkit,
       new_Toolkit (lib := Demo.libraries) (Some Demo.keys) (fun _ => None)
       = inr toolkit.
Proof.
  split; [reflexivity|]. split; [reflexivity|]. eexists. reflexivity.
Qed.

(** By default the tool comes from the executor chain. *)
Example default_run_uses_executor :
  forall toolkit,
    new_Toolkit (lib := Demo.libraries) (Some Demo.keys) (fun _ => None)
    = inr toolkit ->
    let (made, after) :=
      generateTool (lib := Demo.libraries) toolkit JNull false Demo.world in
    bind made (fun t => inr (Obj.get "slug" t)) = inr (Some (JStr "csv-parser"))
    /\ length (calls (executorState after)) = 1
    /\ calls (generatorState after) = []
    /\ handlers (executorState after) = [].
Proof. intros toolkit [= <-]. now vm_compute. Qed.

Example lookup_tools_answer :
  _call (NpmInfo (lib := Demo.libraries)) "left-pad" = inr "Pads on the left."
  /\ _call (NpmInfo (lib := Demo.libraries)) "no-such-package"
     = inr "Error: FetchError: 404 Not Found"
  /\ _call (NpmSearch (lib := Demo.libraries)) "csv" = inr "Error: no results".
Proof. repeat split. Qed.

Example description_for_langchain :
  toLangChainDescription "Parses CSV" (Str.text "{'type':'object'}")
  = "Parses CSV. The action input should adhere to this JSON schema:"
    ++ newline ++ Str.text "{{'type':'object'}}".
Proof. reflexivity. Qed.

(** * Further properties *)

(** ** BaseChain.generate: outcomes and the callback manager *)

(** X1: [generate] returns a text exactly when the chain call succeeds and
    the response holds a text that is not empty under the chain's output
    key; the text returned is that value. *)
Theorem generate_returns_output_field :
  forall (Input : Type) (this : BaseChain Input) (input : Input)
         (s : ChainState) (text : string),
    fst (generate this input s) = inr text
    <-> exists responseValues,
          chain this (getChainValues this input) = inr responseValues
          /\ values_get (getOutputKey this) responseValues = Some text
          /\ text <> "".
Proof.
  intros Input this input s text. run_generate. split.
  - destruct (chain this (getChainValues this input)) as [err|values];
      [discriminate|].
    destruct (values_get (getOutputKey this) values) as [t|] eqn:Hget;
      [|discriminate].
    destruct (String.eqb_spec t "") as [->|Hne]; [discriminate|].
    simpl. intros [= <-]. now exists values.
  - intros (values & -> & -> & Hne).
    destruct (String.eqb_spec text "") as [->|_]; [contradiction|].
    reflexivity.
Qed.

(** X2: a rejection of the chain call is the rejection of [generate],
    unchanged; no other path of [generate] throws what a library threw. *)
Theorem generate_rethrows_chain_failure :
  forall (Input : Type) (this : BaseChain Input) (input : Input)
         (s : ChainState) (e : ErrorObject),
    fst (generate this input s) = inl (Thrown e)
    <-> chain this (getChainValues this input) = inl e.
Proof.
  intros Input this input s e. run_generate. split.
  - destruct (chain this (getChainValues this input)) as [err|values].
    + now intros [= ->].
    + destruct (values_get (getOutputKey this) values) as [t|];
        [destruct (String.eqb t "")|]; discriminate.
  - now intros ->.
Qed.

(** X3: without verbose logging the callback manager is the same before and
    after [generate], whatever the outcome. *)
Theorem generate_quiet_keeps_handlers :
  forall (Input : Type) (this : BaseChain Input) (input : Input)
         (s : ChainState),
    logToConsole this = false ->
    handlers (snd (generate this input s)) = handlers s.
Proof.
  intros Input this input s Hquiet. run_generate. rewrite Hquiet.
  destruct (chain this (getChainValues this input)) as [err|values];
    [reflexivity|].
  destruct (values_get (getOutputKey this) values) as [t|]; [|reflexivity].
  now destruct (String.eqb t "").
Qed.

Lemma generate_created {Input : Type} (this : BaseChain Input)
  (input : Input) (s : ChainState) :
  created (snd (generate this input s)) = S (created s).
Proof.
  run_generate.
  destruct (chain this (getChainValues this input)) as [err|values]; simpl.
  - now destruct (logToConsole this).
  - destruct (values_get (getOutputKey this) values) as [t|].
    + destruct (String.eqb t ""); now destruct (logToConsole this).
    + now destruct (logToConsole this).
Qed.





Lemma answer_none_fails {Input : Type} (this : BaseChain Input)
  (input : Input) (s : ChainState) :
  answer this input = None ->
  exists e, fst (generate this input s) = inl e.
Proof.
  unfold answer. run_generate.
  destruct (chain this (getChainValues this input)) as [err|values].
  - intros _. now eexists.
  - destruct (values_get (getOutputKey this) values) as [t|].
    + destruct (String.eqb t ""); [|discriminate]. intros _. now eexists.
    + intros _. now eexists.
Qed.

(** X5: under verbose logging every call that has no text to return leaves
    one more handler on the callback manager: after a run of such calls the
    manager holds its former handlers and one new handler per call. *)
Theorem failed_calls_pile_up_handlers :
  forall (Input : Type) (this : BaseChain Input) (inputs : list Input)
         (s : ChainState),
    logToConsole this = true ->
    (forall input, In input inputs -> answer this input = None) ->
    handlers (generate_all this inputs s)
    = (handlers s ++ seq (created s) (length inputs))%list
    /\ length (calls (generate_all this inputs s))
       = length (calls s) + length inputs.
Proof.
  intros Input this inputs s Hlog. revert s.
  induction inputs as [|input rest IH]; intros s Hfail; simpl.
  - now rewrite app_nil_r, Nat.add_0_r.
  - destruct (answer_none_fails this input s) as [e He];
      [apply Hfail; now left|].
    destruct (generate this input s) as [r s'] eqn:Hrun. simpl in *. subst r.
    pose proof (generate_fails_attached this input s Hlog Hrun) as Hh.
    pose proof (generate_created this input s) as Hc.
    pose proof (generate_calls_once this input s) as Hk.
    rewrite Hrun in Hc, Hk. simpl in Hc, Hk.
    destruct (IH s') as [IHh IHc]; [intros i Hi; apply Hfail; now right|].
    rewrite IHh, IHc, Hh, Hc, Hk, <- app_assoc, length_app. simpl.
    split; [reflexivity | lia].
Qed.

Section Further.

Context {lib : Libraries}.

(** ** Toolkit: construction *)

Lemma bind_inr {A B : Type} (r : result A) (k : A -> result B) (b : B) :
  bind r k = inr b -> exists a, r = inr a /\ k a = inr b.
Proof. destruct r as [e|a]; [discriminate|]. intros H. now exists a. Qed.

Lemma library_inl {A : Type} (r : ErrorObject + A) (e : exn) :
  library r = inl e -> exists eo, e = Thrown eo.
Proof. destruct r as [eo|a]; [|discriminate]. intros [= <-]. now exists eo. Qed.

Lemma readTemplate_inl (name : string) (e : exn) :
  readTemplate name = inl e -> exists eo, e = Thrown eo.
Proof. apply library_inl. Qed.

Lemma render_inl (name : string) (context : object) (e : exn) :
  render name context = inl e -> exists eo, e = Thrown eo.
Proof.
  unfold render. destruct (readTemplate name) as [e'|source] eqn:Hread; cbn.
  - intros [= <-]. eapply readTemplate_inl, Hread.
  - apply library_inl.
Qed.

Ltac thrown_by_templates :=
  repeat match goal with
    | |- context [readTemplate ?n] =>
        let H := fresh "Hread" in
        destruct (readTemplate n) as [?e|?t] eqn:H; cbn;
        [intros [= <-]; eapply readTemplate_inl, H|]
    | |- context [render ?n ?c] =>
        let H := fresh "Hrender" in
        destruct (render n c) as [?e|?t] eqn:H; cbn;
        [intros [= <-]; eapply render_inl, H|]
    end; try discriminate.

Lemma SimpleChain_inl (input : ChainInput) (e : exn) :
  SimpleChain input = inl e -> exists eo, e = Thrown eo.
Proof.
  unfold SimpleChain, SimpleChain_getPromptTemplate. thrown_by_templates.
Qed.

Lemma ExecutorChain_inl (input : ChainInput) (e : exn) :
  ExecutorChain input = inl e -> exists eo, e = Thrown eo.
Proof.
  unfold ExecutorChain, ExecutorChain_getPromptTemplate. thrown_by_templates.
Qed.

Lemma IteratorChain_inl (input : ChainInput) (e : exn) :
  IteratorChain input = inl e -> exists eo, e = Thrown eo.
Proof.
  unfold IteratorChain, IteratorChain_getPromptTemplate. thrown_by_templates.
Qed.

Lemma string_or_settled (a b : option string) :
  given (string_or a b) = given (settled a b)
  /\ (given (settled a b) = true -> string_or a b = settled a b).
Proof.
  unfold string_or, settled, given.
  destruct a as [[|c s]|]; simpl; split; try reflexivity; intros _; reflexivity.
Qed.

Lemma build_inl (openAIApiKey serpApiKey : string) (logToConsole : bool)
  (e : exn) :
  build openAIApiKey serpApiKey logToConsole = inl e ->
  exists eo, e = Thrown eo.
Proof.
  unfold build.
  destruct (SimpleChain _) as [e1|g] eqn:H1; cbn;
    [intros [= <-]; eapply SimpleChain_inl, H1|].
  destruct (ExecutorChain _) as [e2|x] eqn:H2; cbn;
    [intros [= <-]; eapply ExecutorChain_inl, H2|].
  destruct (IteratorChain _) as [e3|i] eqn:H3; cbn;
    [intros [= <-]; eapply IteratorChain_inl, H3|].
  discriminate.
Qed.

Lemma new_Toolkit_settled (input : option ToolkitInput)
  (env : string -> option string) :
  let openai :=
    settled (input_key toolkit_openAIApiKey input) (env "OPENAI_API_KEY") in
  let serp :=
    settled (input_key toolkit_serpApiKey input) (env "SERP_API_KEY") in
  new_Toolkit input env
  = match (if given openai then openai else None) with
    | None => inl (Error "OpenAI API key not defined in params or environment")
    | Some k1 =>
        match (if given serp then serp else None) with
        | None => inl (Error "Serp API key not defined in params or environment")
        | Some k2 => build k1 k2 (flag_of input)
        end
    end.
Proof.
  unfold new_Toolkit, settled, input_key, string_or, given, flag_of.
  destruct input as [[o s l]|]; simpl;
    repeat match goal with
      | |- context [match ?x with Some _ => _ | None => _ end] =>
          is_var x; destruct x as [[|? ?]|]; simpl
      | |- context [env ?k] =>
          let v := fresh "v" in
          destruct (env k) as [[|? ?]|]; simpl
      end; try reflexivity; destruct l; reflexivity.
Qed.

(** X6: the constructor throws the OpenAI error exactly when no OpenAI key
    is given by the caller or the environment, and the Serp error exactly
    when an OpenAI key is given and no Serp key is; an empty string is no
    key; a toolkit is only built with both. *)
Theorem new_Toolkit_requires_keys :
  forall (input : option ToolkitInput) (env : string -> option string),
    let openai :=
      settled (input_key toolkit_openAIApiKey input) (env "OPENAI_API_KEY") in
    let serp :=
      settled (input_key toolkit_serpApiKey input) (env "SERP_API_KEY") in
    (new_Toolkit input env
     = inl (Error "OpenAI API key not defined in params or environment")
     <-> given openai = false)
    /\ (new_Toolkit input env
        = inl (Error "Serp API key not defined in params or environment")
        <-> given openai = true /\ given serp = false)
    /\ (forall toolkit,
           new_Toolkit input env = inr toolkit ->
           given openai = true /\ given serp = true).
Proof.
  intros input env openai serp.
  pose proof (new_Toolkit_settled input env) as Hnew. cbv zeta in Hnew.
  fold openai serp in Hnew. rewrite Hnew. clear Hnew.
  destruct (given openai) eqn:Ho; [destruct openai as [k1|]; [|discriminate]|].
  - destruct (given serp) eqn:Hs; [destruct serp as [k2|]; [|discriminate]|].
    + split; [|split].
      * split; [|discriminate].
        intros H. apply build_inl in H as [eo H]. discriminate.
      * split; [|intros [_ H]; discriminate].
        intros H. apply build_inl in H as [eo H]. discriminate.
      * now intros.
    + split; [|split].
      * split; discriminate.
      * now split.
      * discriminate.
  - split; [|split].
    + now split.
    + split; [discriminate | intros [H _]; discriminate].
    + discriminate.
Qed.

Lemma build_inr (k1 k2 : string) (flag : bool) (toolkit : Toolkit) :
  build k1 k2 flag = inr toolkit ->
  let chainInput :=
    {| input_openAIApiKey := k1; input_serpApiKey := k2;
       input_logToConsole := flag |} in
  SimpleChain chainInput = inr (generatorChain toolkit)
  /\ ExecutorChain chainInput = inr (executorChain toolkit)
  /\ IteratorChain chainInput = inr (iteratorChain toolkit).
Proof.
  unfold build. intros H.
  apply bind_inr in H as (g & Hg & H).
  apply bind_inr in H as (x & Hx & H).
  apply bind_inr in H as (i & Hi & H).
  injection H as <-. now repeat split.
Qed.

Lemma new_Toolkit_inr (input : option ToolkitInput)
  (env : string -> option string) (toolkit : Toolkit) :
  new_Toolkit input env = inr toolkit ->
  exists k1 k2,
    settled (input_key toolkit_openAIApiKey input) (env "OPENAI_API_KEY")
    = Some k1
    /\ settled (input_key toolkit_serpApiKey input) (env "SERP_API_KEY")
       = Some k2
    /\ build k1 k2 (flag_of input) = inr toolkit.
Proof.
  rewrite new_Toolkit_settled.
  destruct (given (settled (input_key toolkit_openAIApiKey input) _));
    [|discriminate].
  destruct (settled (input_key toolkit_openAIApiKey input) _) as [k1|];
    [|discriminate].
  destruct (given (settled (input_key toolkit_serpApiKey input) _));
    [|discriminate].
  destruct (settled (input_key toolkit_serpApiKey input) _) as [k2|];
    [|discriminate].
  intros H. now exists k1, k2.
Qed.

(** X7: a toolkit that is built has its three chains on the same OpenAI
    key, the caller's when given and the environment's otherwise, and on the
    same logging flag, the caller's or else off; the generator chain reads
    the response field [text], the executor and iterator chains [output]. *)
Theorem new_Toolkit_wires_chains :
  forall (input : option ToolkitInput) (env : string -> option string)
         (toolkit : Toolkit),
    new_Toolkit input env = inr toolkit ->
    let key := openAIApiKey (generatorChain toolkit) in
    settled (input_key toolkit_openAIApiKey input) (env "OPENAI_API_KEY")
    = Some key
    /\ openAIApiKey (executorChain toolkit) = key
    /\ openAIApiKey (iteratorChain toolkit) = key
    /\ logToConsole (generatorChain toolkit) = flag_of input
    /\ logToConsole (executorChain toolkit) = flag_of input
    /\ logToConsole (iteratorChain toolkit) = flag_of input
    /\ getOutputKey (generatorChain toolkit) = "text"
    /\ getOutputKey (executorChain toolkit) = "output"
    /\ getOutputKey (iteratorChain toolkit) = "output".
Proof.
  intros input env toolkit Hnew.
  apply new_Toolkit_inr in Hnew as (k1 & k2 & Hk1 & Hk2 & Hbuild).
  apply build_inr in Hbuild as (Hg & Hx & Hi). cbv zeta in *.
  unfold SimpleChain in Hg. apply bind_inr in Hg as (pg & _ & Hg).
  unfold ExecutorChain in Hx. apply bind_inr in Hx as (px & _ & Hx).
  unfold IteratorChain in Hi. apply bind_inr in Hi as (pi & _ & Hi).
  injection Hg as Hg. injection Hx as Hx. injection Hi as Hi.
  rewrite <- Hg, <- Hx, <- Hi. cbn. now rewrite Hk1.
Qed.

(** X8: the constructor reads the prompt templates: with both keys given, a
    tool specification that cannot be read makes it throw what the file
    system threw. *)
Theorem new_Toolkit_needs_templates :
  forall (input : option ToolkitInput) (env : string -> option string)
         (e : ErrorObject),
    given (settled (input_key toolkit_openAIApiKey input)
             (env "OPENAI_API_KEY")) = true ->
    given (settled (input_key toolkit_serpApiKey input)
             (env "SERP_API_KEY")) = true ->
    readFileSync (resolveFromSrc "templates/tool-spec.txt") = inl e ->
    new_Toolkit input env = inl (Thrown e).
Proof.
  intros input env e Ho Hs Hread.
  rewrite new_Toolkit_settled. rewrite Ho, Hs.
  destruct (settled (input_key toolkit_openAIApiKey input) _) as [k1|];
    [|discriminate].
  destruct (settled (input_key toolkit_serpApiKey input) _) as [k2|];
    [|discriminate].
  unfold build, SimpleChain, SimpleChain_getPromptTemplate, readTemplate.
  cbn [append]. now rewrite Hread.
Qed.

(** ** Toolkit: generateTool and iterateTool *)

Lemma generate_answer {Input : Type} (this : BaseChain Input)
  (input : Input) (s : ChainState) :
  match answer this input with
  | Some text => fst (generate this input s) = inr text
  | None => exists e, fst (generate this input s) = inl e
  end.
Proof.
  destruct (answer this input) as [text|] eqn:Ha.
  - unfold answer in Ha. run_generate.
    destruct (chain this (getChainValues this input)) as [e|values];
      [discriminate|].
    destruct (values_get (getOutputKey this) values) as [t|];
      [|discriminate].
    destruct (String.eqb t ""); [discriminate|].
    now injection Ha as <-.
  - now apply answer_none_fails.
Qed.

Lemma generate_outcome_fixed {Input : Type} (this : BaseChain Input)
  (input : Input) (s s' : ChainState) :
  fst (generate this input s) = fst (generate this input s').
Proof.
  run_generate.
  destruct (chain this (getChainValues this input)) as [e|values];
    [reflexivity|].
  destruct (values_get (getOutputKey this) values) as [t|]; [|reflexivity].
  now destruct (String.eqb t "").
Qed.

(** X9: [generateTool] gives the text of the picked chain to
    [parseResponse] and returns what it returns; when the chain has no text
    to return, [generateTool] throws the error of [generate] and nothing is
    parsed. *)
Theorem generateTool_parses_answer :
  forall (this : Toolkit) (input : json) (withExecutor : bool)
         (w : ToolkitState),
    let picked :=
      if withExecutor then generatorChain this else executorChain this in
    match answer picked input with
    | Some text =>
        fst (generateTool this input withExecutor w) = parseResponse text
    | None =>
        exists e,
          fst (generateTool this input withExecutor w) = inl e
          /\ forall s, fst (generate picked input s) = inl e
    end.
Proof.
  intros this input withExecutor w picked.
  assert (Hrun : fst (generateTool this input withExecutor w)
                 = bind (fst (generate picked input
                                (if withExecutor then generatorState w
                                 else executorState w))) parseResponse).
  { unfold generateTool, on_generator, on_executor, picked.
    destruct withExecutor;
      [destruct (generate (generatorChain this) input (generatorState w))
      |destruct (generate (executorChain this) input (executorState w))];
      reflexivity. }
  rewrite Hrun.
  pose proof (generate_answer picked input
                (if withExecutor then generatorState w else executorState w))
    as Ha.
  destruct (answer picked input) as [text|].
  - now rewrite Ha.
  - destruct Ha as [e He]. exists e. rewrite He. split; [reflexivity|].
    intros s. rewrite <- He. apply generate_outcome_fixed.
Qed.


(** X11: [generateTool] on a built toolkit sends the serialized input; on
    the default path the executor chain also gets the listing and the names
    of the three lookup tools, while with [withExecutor] the generator chain
    gets the input alone. *)
Theorem generateTool_sends_input :
  forall (input : option ToolkitInput) (env : string -> option string)
         (toolkit : Toolkit) (request : json) (w : ToolkitState),
    new_Toolkit input env = inr toolkit ->
    exists serpApiKey,
      settled (input_key toolkit_serpApiKey input) (env "SERP_API_KEY")
      = Some serpApiKey
      /\ calls (executorState (snd (generateTool toolkit request false w)))
         = (calls (executorState w)
              ++ [[("generateToolInput", JSON_stringify request);
                   ("tools",
                    tools_listing [NpmSearch; NpmInfo; SerpAPI serpApiKey]);
                   ("toolNames",
                    Str.join ", "
                      ["npm-search"; "npm-info";
                       tool_name (SerpAPI serpApiKey)])]])%list
      /\ calls (generatorState (snd (generateTool toolkit request true w)))
         = (calls (generatorState w)
              ++ [[("generateToolInput", JSON_stringify request)]])%list.
Proof.
  intros input env toolkit request w Hnew.
  apply new_Toolkit_inr in Hnew as (k1 & k2 & Hk1 & Hk2 & Hbuild).
  apply build_inr in Hbuild as (Hg & Hx & _). cbv zeta in *.
  unfold SimpleChain in Hg. apply bind_inr in Hg as (pg & _ & Hg).
  unfold ExecutorChain in Hx. apply bind_inr in Hx as (px & _ & Hx).
  injection Hg as Hg. injection Hx as Hx.
  exists k2. split; [exact Hk2|].
  unfold generateTool, on_executor, on_generator. split.
  - pose proof (generate_calls_once (executorChain toolkit) request
                  (executorState w)) as Hcalls.
    destruct (generate (executorChain toolkit) request (executorState w))
      as [r s]. simpl in *. now rewrite Hcalls, <- Hx.
  - pose proof (generate_calls_once (generatorChain toolkit) request
                  (generatorState w)) as Hcalls.
    destruct (generate (generatorChain toolkit) request (generatorState w))
      as [r s]. simpl in *. now rewrite Hcalls, <- Hg.
Qed.

(** X12: each chain supplies the variables its prompt asks for: the simple
    chain all of them, the executor and iterator chains all but
    [agent_scratchpad], which the agent fills in. *)
Theorem chains_supply_prompt_variables :
  forall (chainInput : ChainInput),
    (forall prompt this (request : json),
        SimpleChain_getPromptTemplate = inr prompt ->
        SimpleChain chainInput = inr this ->
        prompt_inputVariables prompt
        = map fst (getChainValues this request))
    /\ (forall prompt this (request : json),
           ExecutorChain_getPromptTemplate = inr prompt ->
           ExecutorChain chainInput = inr this ->
           prompt_inputVariables prompt
           = (map fst (getChainValues this request)
                ++ ["agent_scratchpad"])%list)
    /\ (forall prompt this (request : IterateInput),
           IteratorChain_getPromptTemplate = inr prompt ->
           IteratorChain chainInput = inr this ->
           prompt_inputVariables prompt
           = (map fst (getChainValues this request)
                ++ ["agent_scratchpad"])%list).
Proof.
  intros chainInput. split; [|split]; intros prompt this request Hp Hc.
  - unfold SimpleChain in Hc. apply bind_inr in Hc as (p & _ & Hc).
    injection Hc as <-.
    unfold SimpleChain_getPromptTemplate in Hp.
    apply bind_inr in Hp as (a & _ & Hp). apply bind_inr in Hp as (b & _ & Hp).
    now injection Hp as <-.
  - unfold ExecutorChain in Hc. apply bind_inr in Hc as (p & _ & Hc).
    injection Hc as <-.
    unfold ExecutorChain_getPromptTemplate in Hp.
    apply bind_inr in Hp as (a & _ & Hp). apply bind_inr in Hp as (b & _ & Hp).
    apply bind_inr in Hp as (c & _ & Hp).
    now injection Hp as <-.
  - unfold IteratorChain in Hc. apply bind_inr in Hc as (p & _ & Hc).
    injection Hc as <-.
    unfold IteratorChain_getPromptTemplate in Hp.
    apply bind_inr in Hp as (a & _ & Hp). apply bind_inr in Hp as (b & _ & Hp).
    apply bind_inr in Hp as (c & _ & Hp).
    now injection Hp as <-.
Qed.

End Further.

(** ** The exported schemas *)

(** X13: [JsonPrimitiveSchema] takes strings, numbers, booleans and null,
    and gives them back as they are; anything else, [undefined] included,
    it refuses with one [invalid_union] issue that holds the issue of each
    of its four options. *)
Theorem JsonPrimitiveSchema_primitives :
  forall (p : z.path) (data : option json),
    match z.getParsedType data with
    | z.t_string | z.t_number | z.t_boolean | z.t_null =>
        exists v, data = Some v /\ JsonPrimitiveSchema p data = inr v
    | received =>
        JsonPrimitiveSchema p data
        = inl [z.invalid_union
                 [[z.invalid_type z.t_string received p];
                  [z.invalid_type z.t_number received p];
                  [z.invalid_type z.t_boolean received p];
                  [z.invalid_type z.t_null received p]] p]
    end.
Proof.
  intros p [[ | b | n | s | items | members]|]; cbn;
    try reflexivity; eexists; split; reflexivity.
Qed.

Lemma mergeArray_same (element : z.path -> json -> z.ParseReturn)
  (items : list json) :
  Forall (fun x => forall p, element p x = inr x) items ->
  forall p i, z.mergeArray (z.parse_items element p i items) = inr items.
Proof.
  induction 1 as [|x items Hx _ IH]; intros p i; simpl; [reflexivity|].
  now rewrite Hx, IH.
Qed.

Lemma set_new (k : string) (v : json) (o : object) :
  existsb (String.eqb k) (map fst o) = false ->
  Obj.set k v o = (o ++ [(k, v)])%list.
Proof.
  induction o as [|[k' v'] o IH]; simpl; [reflexivity|].
  destruct (String.eqb k k'); simpl; [discriminate|].
  intros H. now rewrite IH.
Qed.

Lemma existsb_app_false (k : string) (a b : list string) :
  existsb (String.eqb k) a = false ->
  existsb (String.eqb k) b = false ->
  existsb (String.eqb k) (a ++ b) = false.
Proof. intros Ha Hb. now rewrite existsb_app, Ha, Hb. Qed.

Lemma mergeObject_same (element : z.path -> json -> z.ParseReturn)
  (members : object) :
  Forall (fun kv => forall p, element p (snd kv) = inr (snd kv)) members ->
  distinct (map fst members) = true ->
  existsb (String.eqb "__proto__") (map fst members) = false ->
  forall p final,
    (forall k, existsb (String.eqb k) (map fst members) = true ->
               existsb (String.eqb k) (map fst final) = false) ->
    z.mergeObject final (z.parse_members element p members)
    = inr (final ++ members)%list.
Proof.
  induction 1 as [|[k x] members Hx _ IH]; intros Hdistinct Hproto p final Hnew;
    cbn [z.parse_members z.mergeObject map fst snd distinct existsb] in *.
  - now rewrite app_nil_r.
  - rewrite Hx.
    apply andb_true_iff in Hdistinct as [Hk Hdistinct].
    apply negb_true_iff in Hk.
    apply orb_false_iff in Hproto as [Hkproto Hproto].
    rewrite String.eqb_sym, Hkproto.
    rewrite set_new by (apply Hnew; now rewrite String.eqb_refl).
    rewrite IH; try assumption.
    + now rewrite <- app_assoc.
    + intros k' Hk'. rewrite map_app. apply existsb_app_false.
      * apply Hnew. rewrite Hk'. apply orb_true_r.
      * cbn [map fst existsb]. rewrite orb_false_r.
        destruct (String.eqb_spec k' k) as [->|_]; [congruence | reflexivity].
Qed.

Lemma forallb_members (P : json -> Prop) (members : object) :
  Forall (fun kv => plain (snd kv) = true -> P (snd kv)) members ->
  forallb (fun kv => let '(_, x) := kv in plain x) members = true ->
  Forall (fun kv => P (snd kv)) members.
Proof.
  induction 1 as [|[k x] members Hx _ IH]; simpl; intros Hall;
    constructor; apply andb_true_iff in Hall as [Hp Hall]; auto.
Qed.

Lemma forallb_items (P : json -> Prop) (items : list json) :
  Forall (fun x => plain x = true -> P x) items ->
  forallb plain items = true ->
  Forall P items.
Proof.
  induction 1 as [|x items Hx _ IH]; simpl; intros Hall;
    constructor; apply andb_true_iff in Hall as [Hp Hall]; auto.
Qed.

Lemma JsonValueSchema_on_plain (v : json) :
  plain v = true -> forall p, JsonValueSchema_on p v = inr v.
Proof.
  induction v as [ | b | n | s | items IH | members IH] using json_induction;
    intros Hplain p; rewrite JsonValueSchema_on_unfold;
    try reflexivity.
  - cbn. unfold z.array_of.
    rewrite mergeArray_same; [reflexivity|].
    apply (forallb_items (fun x => forall p, JsonValueSchema_on p x = inr x));
      assumption.
  - cbn. unfold z.record_of. simpl in Hplain.
    apply andb_true_iff in Hplain as [Hplain Hall].
    apply andb_true_iff in Hplain as [Hdistinct Hproto].
    apply negb_true_iff in Hproto.
    rewrite mergeObject_same; try assumption; [reflexivity| |now intros].
    apply (forallb_members
             (fun x => forall p, JsonValueSchema_on p x = inr x));
      assumption.
Qed.

Lemma JsonObjectSchema_plain (p : z.path) (members : object) :
  plain (JObj members) = true ->
  JsonObjectSchema p (Some (JObj members)) = inr (JObj members).
Proof.
  intros Hplain.
  pose proof (JsonValueSchema_on_plain (JObj members) Hplain p) as H.
  rewrite JsonValueSchema_on_unfold in H. cbn in H.
  unfold JsonObjectSchema, z.record, z.record_of.
  change (fun (q : z.path) (x : json) => JsonValueSchema q (Some x))
    with JsonValueSchema_on.
  destruct (z.mergeObject [] (z.parse_members JsonValueSchema_on p members))
    as [e|r]; [discriminate | exact H].
Qed.

(** X14: [JsonValueSchema] takes every JSON value and refuses
    [undefined]; a value whose objects have each key once and no key
    [__proto__] comes back as it is, and so does such an object from
    [JsonObjectSchema]. *)
Theorem JsonValueSchema_takes_every_value :
  (forall (p : z.path) (v : json),
      exists parsed, JsonValueSchema p (Some v) = inr parsed)
  /\ (forall p : z.path, exists issues, JsonValueSchema p None = inl issues)
  /\ (forall (p : z.path) (v : json),
         plain v = true -> JsonValueSchema p (Some v) = inr v)
  /\ (forall (p : z.path) (members : object),
         plain (JObj members) = true ->
         JsonObjectSchema p (Some (JObj members)) = inr (JObj members)).
Proof.
  split; [|split; [|split]].
  - intros p v. apply JsonValueSchema_accepts.
  - intros p. eexists. reflexivity.
  - intros p v Hplain. now apply JsonValueSchema_on_plain.
  - intros p members Hplain. now apply JsonObjectSchema_plain.
Qed.

(** X15: [JsonObjectSchema] takes objects and nothing else: an array, a
    primitive or [undefined] is refused with a single issue that asks for an
    object and names what was received. *)
Theorem JsonObjectSchema_takes_objects :
  forall (p : z.path) (data : option json),
    match data with
    | Some (JObj members) =>
        exists parsed, JsonObjectSchema p data = inr (JObj parsed)
    | _ =>
        JsonObjectSchema p data
        = inl [z.invalid_type z.t_object (z.getParsedType data) p]
    end.
Proof.
  intros p [[ | b | n | s | items | members]|]; try reflexivity.
  apply JsonObjectSchema_object.
Qed.

(** ** GeneratedToolSchema: what it takes and what it reports *)

Lemma mergeObject_inr_issues (pairs : list (string * z.ParseReturn)) :
  forall final o,
    z.mergeObject final pairs = inr o ->
    flat_map (fun kr => result_issues (snd kr)) pairs = [].
Proof.
  induction pairs as [|[k r] pairs IH]; intros final o Hmerge;
    [reflexivity|].
  apply mergeObject_cons_inr in Hmerge as (v & -> & Hmerge).
  simpl. eapply IH, Hmerge.
Qed.

Lemma mergeObject_inl_issues (pairs : list (string * z.ParseReturn)) :
  forall final es,
    z.mergeObject final pairs = inl es ->
    es = flat_map (fun kr => result_issues (snd kr)) pairs.
Proof.
  induction pairs as [|[k r] pairs IH]; intros final es Hmerge;
    [discriminate|].
  simpl in Hmerge. destruct r as [e|v]; simpl.
  - destruct (z.mergeObject final pairs) as [es'|o] eqn:Hrest.
    + injection Hmerge as <-. f_equal. eapply IH, Hrest.
    + injection Hmerge as <-.
      rewrite (mergeObject_inr_issues _ _ Hrest). now rewrite app_nil_r.
  - eapply IH, Hmerge.
Qed.

Lemma string_field_issue (members : object) (k : string) :
  expected_type k = z.t_string ->
  result_issues (z.string [z.Key k] (Obj.get k members))
  = field_issue members k.
Proof.
  unfold field_issue. intros ->.
  now destruct (Obj.get k members) as [[ | | | | | ]|].
Qed.

Lemma object_field_issue (members : object) (k : string) :
  expected_type k = z.t_object ->
  result_issues (JsonObjectSchema [z.Key k] (Obj.get k members))
  = field_issue members k.
Proof.
  unfold field_issue. intros ->.
  destruct (Obj.get k members) as [[ | | | | | m]|]; try reflexivity.
  destruct (JsonObjectSchema_object [z.Key k] m) as [o ->]. reflexivity.
Qed.

Lemma shape_issues (members : object) :
  flat_map (fun kr => result_issues (snd kr))
    (z.parse_shape GeneratedToolShape [] members)
  = field_issues members.
Proof.
  unfold z.parse_shape, field_issues, required_fields.
  cbn [map GeneratedToolShape flat_map fst snd app].
  rewrite !string_field_issue, !object_field_issue by reflexivity.
  reflexivity.
Qed.

Lemma field_issue_none (members : object) (k : string) :
  field_issue members k = [] ->
  z.getParsedType (Obj.get k members) = expected_type k.
Proof.
  unfold field_issue.
  destruct (z.getParsedType (Obj.get k members)), (expected_type k);
    simpl; intros H; try reflexivity; discriminate.
Qed.

Lemma field_issues_none (members : object) :
  field_issues members = [] ->
  exists n d i o c, GeneratedTool_shaped members n d i o c.
Proof.
  unfold field_issues, required_fields. cbn [flat_map].
  intros H.
  apply app_eq_nil in H as [Hn H]. apply app_eq_nil in H as [Hd H].
  apply app_eq_nil in H as [Hi H]. apply app_eq_nil in H as [Ho H].
  apply app_eq_nil in H as [Hc _].
  apply field_issue_none in Hn, Hd, Hi, Ho, Hc.
  unfold GeneratedTool_shaped.
  destruct (Obj.get "name" members) as [[ | | |n| | ]|]; try discriminate.
  destruct (Obj.get "description" members) as [[ | | |d| | ]|];
    try discriminate.
  destruct (Obj.get "inputSchema" members) as [[ | | | | |i]|];
    try discriminate.
  destruct (Obj.get "outputSchema" members) as [[ | | | | |o]|];
    try discriminate.
  destruct (Obj.get "code" members) as [[ | | |c| | ]|]; try discriminate.
  now exists n, d, i, o, c.
Qed.

(** X16: [GeneratedToolSchema] takes a value exactly when it is an object
    whose [name], [description] and [code] are strings and whose
    [inputSchema] and [outputSchema] are objects; a value that is no object
    is refused with a single issue at the root. *)
Theorem GeneratedToolSchema_takes_tools :
  forall data : json,
    match data with
    | JObj members =>
        (exists generatedTool,
            GeneratedToolSchema_parse data = inr generatedTool)
        <-> exists n d i o c, GeneratedTool_shaped members n d i o c
    | _ =>
        GeneratedToolSchema_parse data
        = inl (ZodError
                 [z.invalid_type z.t_object (z.getParsedType (Some data)) []])
    end.
Proof.
  intros [ | b | n | s | items | members]; try reflexivity.
  split.
  - intros [g Hg].
    apply GeneratedToolSchema_inr in Hg
      as (members' & n & d & i & o & c & i' & o' & [= <-] & Hshape & _).
    now exists n, d, i, o, c.
  - intros (n & d & i & o & c & Hshape).
    destruct (GeneratedToolSchema_accepts Hshape) as (i' & o' & Hvalid).
    eexists. exact Hvalid.
Qed.

(** X17: on a response object the [ZodError] of [GeneratedToolSchema] holds
    one issue for each field that is missing or of another type, in the
    order [name], [description], [inputSchema], [outputSchema], [code], and
    nothing else; the object is taken exactly when there is no such field. *)
Theorem GeneratedToolSchema_reports_every_field :
  forall members : object,
    match GeneratedToolSchema_parse (JObj members) with
    | inr _ => field_issues members = []
    | inl e =>
        e = ZodError (field_issues members) /\ field_issues members <> []
    end.
Proof.
  intros members.
  destruct (GeneratedToolSchema_parse (JObj members)) as [e|g] eqn:Hrun.
  - unfold GeneratedToolSchema_parse, z.object_fields in Hrun.
    destruct (z.mergeObject _ _) as [es|o] eqn:Hmerge; [|discriminate].
    injection Hrun as <-.
    pose proof Hmerge as Hrefused.
    apply mergeObject_inl_issues in Hmerge. rewrite shape_issues in Hmerge.
    split; [now rewrite Hmerge|].
    intros Hnone. apply field_issues_none in Hnone
      as (n & d & i & o & c & Hshape).
    destruct (GeneratedToolSchema_accepts Hshape) as (i' & o' & Hvalid).
    unfold GeneratedToolSchema_parse, z.object_fields in Hvalid.
    rewrite Hrefused in Hvalid. discriminate.
  - unfold GeneratedToolSchema_parse, z.object_fields in Hrun.
    destruct (z.mergeObject _ _) as [es|o] eqn:Hmerge; [discriminate|].
    apply mergeObject_inr_issues in Hmerge. now rewrite shape_issues in Hmerge.
Qed.

(** ** JSON.parse: objects have each key once *)

Lemma set_keys_distinct (k : string) (v : json) (m : object) :
  distinct (map fst m) = true ->
  distinct (map fst (Obj.set k v m)) = true
  /\ forall k', existsb (String.eqb k') (map fst (Obj.set k v m))
                = String.eqb k' k || existsb (String.eqb k') (map fst m).
Proof.
  induction m as [|[k0 v0] m IH]; cbn [Obj.set map fst distinct existsb].
  - intros _. split; [reflexivity|]. intros k'. reflexivity.
  - intros Hd. apply andb_true_iff in Hd as [Hk0 Hd].
    destruct (String.eqb_spec k k0) as [->|Hne];
      cbn [map fst distinct existsb].
    + split; [now rewrite Hk0, Hd|].
      intros k'. now destruct (String.eqb k' k0).
    + destruct (IH Hd) as [IHd IHk]. split.
      * rewrite IHd, IHk. apply negb_true_iff in Hk0. rewrite Hk0.
        destruct (String.eqb_spec k0 k) as [->|_]; [congruence|reflexivity].
      * intros k'. rewrite IHk.
        destruct (String.eqb k' k0), (String.eqb k' k); reflexivity.
Qed.

Lemma set_unique (k : string) (v : json) (m : object) :
  unique v = true ->
  unique_members m = true ->
  unique_members (Obj.set k v m) = true.
Proof.
  unfold unique_members. cbn [unique]. intros Hv Hm.
  apply andb_true_iff in Hm as [Hd Hall].
  apply andb_true_iff. split; [now apply set_keys_distinct|].
  clear Hd. induction m as [|[k0 v0] m IH]; cbn [Obj.set forallb] in *.
  - now rewrite Hv.
  - apply andb_true_iff in Hall as [H0 Hall].
    destruct (String.eqb k k0); cbn [forallb].
    + now rewrite Hv, Hall.
    + now rewrite H0, IH.
Qed.

Lemma deliver_unique (v : json) (st : list JSON.frame) :
  unique v = true ->
  forallb unique_frame st = true ->
  unique_state (JSON.deliver v st) = true.
Proof.
  intros Hv Hst.
  destruct st as [|[acc|m k] st];
    cbn [JSON.deliver unique_state forallb unique_frame] in *.
  - exact Hv.
  - apply andb_true_iff in Hst as [Hacc Hst]. now rewrite Hv, Hacc, Hst.
  - apply andb_true_iff in Hst as [Hm Hst].
    now rewrite set_unique, Hst.
Qed.

Lemma value_step_unique (st : list JSON.frame) (t : JSON.token)
  (p : JSON.pstate) :
  forallb unique_frame st = true ->
  JSON.value_step st t = Some p ->
  unique_state p = true.
Proof.
  intros Hst. destruct t; cbn; intros [= <-];
    try (now apply deliver_unique); exact Hst.
Qed.

Lemma forallb_rev {A : Type} (f : A -> bool) (l : list A) :
  forallb f (rev l) = forallb f l.
Proof.
  induction l as [|x l IH]; simpl; [reflexivity|].
  rewrite forallb_app, IH. simpl. rewrite andb_true_r. apply andb_comm.
Qed.

Lemma parse_step_unique (p p' : JSON.pstate) (t : JSON.token) :
  unique_state p = true ->
  JSON.parse_step p t = Some p' ->
  unique_state p' = true.
Proof.
  destruct p as [st|st|acc st|st|m st|m k st|m st|v]; cbn [unique_state];
    intros Hp.
  - apply value_step_unique, Hp.
  - destruct t; cbn; try discriminate;
      try (intros [= <-]; now apply deliver_unique);
      try (intros [= <-]; cbn; exact Hp).
  - apply andb_true_iff in Hp as [Hacc Hst].
    destruct t; cbn; try discriminate; intros [= <-].
    + apply deliver_unique; [|exact Hst]. cbn. now rewrite forallb_rev.
    + cbn. now rewrite Hacc, Hst.
  - destruct t; cbn; try discriminate; intros [= <-].
    + now apply deliver_unique.
    + cbn. exact Hp.
  - destruct t; cbn; try discriminate. intros [= <-]. exact Hp.
  - destruct t; cbn; try discriminate. intros [= <-]. exact Hp.
  - apply andb_true_iff in Hp as [Hm Hst].
    destruct t; cbn; try discriminate; intros [= <-].
    + now apply deliver_unique.
    + cbn [unique_state]. now rewrite Hm, Hst.
  - destruct t; discriminate.
Qed.

Lemma parse_from_unique (ts : list JSON.token) :
  forall p v,
    unique_state p = true ->
    JSON.parse_from p ts = Some v ->
    unique v = true.
Proof.
  induction ts as [|t ts IH]; intros p v Hp; simpl.
  - destruct p; try discriminate. now intros [= <-].
  - destruct (JSON.parse_step p t) as [p'|] eqn:Hstep; [|discriminate].
    apply IH. eapply parse_step_unique; eassumption.
Qed.

(** What [JSON.parse] reads has each key of each object once. *)
Lemma JSON_parse_unique (text : string) (v : json) :
  JSON.parse text = Some v -> unique v = true.
Proof.
  unfold JSON.parse. destruct (JSON.lex text) as [ts|]; [|discriminate].
  now apply parse_from_unique.
Qed.

Lemma plain_unique_protoless (v : json) :
  unique v = true -> protoless v = true -> plain v = true.
Proof.
  induction v as [ | b | n | s | items IH | members IH] using json_induction;
    try reflexivity; cbn [unique protoless plain].
  - induction IH as [|x items Hx _ IHitems]; simpl; [reflexivity|].
    intros Hu Hp.
    apply andb_true_iff in Hu as [Hux Hu].
    apply andb_true_iff in Hp as [Hpx Hp].
    now rewrite Hx, IHitems.
  - intros Hu Hp.
    apply andb_true_iff in Hu as [Hd Hu].
    apply andb_true_iff in Hp as [Hproto Hp].
    rewrite Hd, Hproto. simpl. clear Hd Hproto.
    induction IH as [|[k x] members Hx _ IHmembers]; simpl in *;
      [reflexivity|].
    apply andb_true_iff in Hu as [Hux Hu].
    apply andb_true_iff in Hp as [Hpx Hp].
    now rewrite Hx, IHmembers.
Qed.

Lemma get_unique (k : string) (m : object) (v : json) :
  unique (JObj m) = true -> Obj.get k m = Some v -> unique v = true.
Proof.
  cbn [unique]. intros H. apply andb_true_iff in H as [_ H].
  induction m as [|[k0 v0] m IH]; simpl in *; [discriminate|].
  apply andb_true_iff in H as [H0 H].
  destruct (String.eqb k k0); [now intros [= <-] | now apply IH].
Qed.

(** ** Objects *)





(** ** Strings: lines and counts *)

Lemma split_first (c : ascii) (s : string) :
  exists first rest, Str.split c s = first :: rest.
Proof.
  destruct s as [|x s]; simpl; [now eexists; eexists|].
  destruct (Ascii.eqb x c); [now eexists; eexists|].
  destruct (Str.split c s); now eexists; eexists.
Qed.

Lemma split_indented (s : string) :
  Str.split (ascii_of_nat 10)
    (Str.replaceAll (ascii_of_nat 10) (newline ++ "  ") s)
  = match Str.split (ascii_of_nat 10) s with
    | [] => []
    | first :: rest => first :: map (append "  ") rest
    end.
Proof.
  change (newline ++ "  ") with (String (ascii_of_nat 10) "  ").
  induction s as [|x s IH]; [reflexivity|].
  cbn [Str.replaceAll Str.split].
  destruct (Ascii.eqb x (ascii_of_nat 10)) eqn:Hx.
  - cbn [append Str.split]. rewrite Ascii.eqb_refl.
    change (Ascii.eqb " " (ascii_of_nat 10)) with false. cbn iota.
    rewrite IH.
    destruct (split_first (ascii_of_nat 10) s) as (first & rest & ->).
    reflexivity.
  - cbn [Str.split]. rewrite Hx, IH.
    destruct (split_first (ascii_of_nat 10) s) as (first & rest & ->).
    reflexivity.
Qed.

Lemma count_append (c : ascii) (a b : string) :
  Str.count c (a ++ b) = Str.count c a + Str.count c b.
Proof.
  induction a as [|x a IH]; simpl; [reflexivity|]. rewrite IH. lia.
Qed.

Section Formatting.

Context {lib : Libraries}.

(** ** ToolFormatter *)

(** X18: [stringifyJsonSchema] prints the schema ([null] when there is
    none) and pushes every line after the first two spaces to the right;
    the lines are otherwise those the printer gave. *)
Theorem stringifyJsonSchema_indents_lines :
  forall jsonSchema : option object,
    Str.split (ascii_of_nat 10) (stringifyJsonSchema jsonSchema)
    = match Str.split (ascii_of_nat 10)
              (JSON_stringify_indented
                 (match jsonSchema with
                  | Some members => JObj members
                  | None => JNull
                  end)) with
      | [] => []
      | first :: rest => first :: map (append "  ") rest
      end.
Proof.
  intros jsonSchema. unfold stringifyJsonSchema.
  rewrite split_indented. now destruct jsonSchema.
Qed.

(** X19: the braces of the description are not doubled: the text made for
    the agent framework has as many opening (closing) braces as the
    description plus twice as many as the schema text. *)
Theorem toLangChainDescription_counts_braces :
  forall description inputSchemaString : string,
    Str.count "{" (toLangChainDescription description inputSchemaString)
    = Str.count "{" description + 2 * Str.count "{" inputSchemaString
    /\ Str.count "}" (toLangChainDescription description inputSchemaString)
       = Str.count "}" description + 2 * Str.count "}" inputSchemaString.
Proof.
  intros description inputSchemaString.
  unfold toLangChainDescription. rewrite replaceAll_braces.
  rewrite !count_append, !count_double_braces.
  destruct (negb (String.eqb (Str.slice_last description) "."));
    rewrite ?count_append; cbn; lia.
Qed.

Lemma toLangChain_context (this : ToolFormatter) (t : BaseTool) :
  as_BaseTool (tool this) = Some t ->
  toLangChain this
  = let* toolCode := library (format (code t)) in
    library (langchainTemplate this
               [("className", JStr (camelCase (slug t)));
                ("toolCode", JStr toolCode);
                ("toolSlug", JStr (slug t));
                ("langchainDescription",
                 JStr (toLangChainDescription (description t)
                         (JSON_stringify (or_null (inputSchema t)))));
                ("inputSchema", JStr (stringifyJsonSchema (inputSchema t)));
                ("outputSchema", JStr (stringifyJsonSchema (outputSchema t)))]).
Proof. unfold toLangChain. now intros ->. Qed.


(** ** Toolkit.parseResponse: the tool it makes and the errors it passes on *)

Lemma GeneratedToolSchema_plain (members : object) (n d : string)
  (i o : object) (c : string) :
  GeneratedTool_shaped members n d i o c ->
  plain (JObj i) = true ->
  plain (JObj o) = true ->
  GeneratedToolSchema_parse (JObj members) = inr (generated n d i o c).
Proof.
  intros (Hn & Hd & Hi & Ho & Hc) Hpi Hpo.
  unfold GeneratedToolSchema_parse, z.object_fields, z.parse_shape.
  cbn [map GeneratedToolShape fst snd app].
  rewrite Hn, Hd, Hi, Ho, Hc.
  rewrite (JsonObjectSchema_plain _ _ Hpi), (JsonObjectSchema_plain _ _ Hpo).
  reflexivity.
Qed.

(** X21: for a response of the shape of a generated tool whose schemas have
    no key [__proto__], the tool that is returned has the response's name,
    description, schemas and code as they are, the slug of the name, and as
    [langChainCode] the template rendered on the class name made from the
    slug, the formatted code, the slug, the description for the agent
    framework and the two printed schemas. *)
Theorem parseResponse_makes_tool :
  forall (raw : string) (members : object) (n d : string) (i o : object)
         (c template formatted rendered : string),
    JSON.parse raw = Some (JObj members) ->
    GeneratedTool_shaped members n d i o c ->
    protoless (JObj i) = true ->
    protoless (JObj o) = true ->
    readFileSync (resolveFromSrc "templates/langchain-tool.hbs")
    = inr template ->
    format c = inr formatted ->
    Handlebars_compile template
      (langchain_context (slugify n) d i o formatted) = inr rendered ->
    parseResponse raw
    = inr (formatted_tool (slugify n) n d i o c rendered).
Proof.
  intros raw members n d i o c template formatted rendered
         Hparse Hshape Hpi Hpo Hread Hformat Hrender.
  pose proof (JSON_parse_unique _ Hparse) as Hunique.
  destruct Hshape as (Hn & Hd & Hi & Ho & Hc).
  assert (Hplain_i : plain (JObj i) = true).
  { apply plain_unique_protoless; [|exact Hpi]. eapply get_unique; eassumption. }
  assert (Hplain_o : plain (JObj o) = true).
  { apply plain_unique_protoless; [|exact Hpo]. eapply get_unique; eassumption. }
  unfold parseResponse. rewrite Hparse.
  rewrite (@GeneratedToolSchema_plain members n d i o c) by
    (try assumption; now repeat split).
  cbn [bind generated Obj.get String.eqb Ascii.eqb Bool.eqb slugify_value].
  unfold new_ToolFormatter. rewrite Hread.
  cbn [library bind]. unfold toolWithFormats.
  match goal with
  | |- context [toLangChain ?formatter] =>
      rewrite (@toLangChain_context formatter _
                 (as_BaseTool_validated (slugify n) n d i o c))
  end.
  cbn [code slug description inputSchema outputSchema or_null
       langchainTemplate].
  rewrite Hformat. cbn [library bind].
  unfold langchain_context in Hrender. rewrite Hrender.
  reflexivity.
Qed.

(** X22: for a response of the shape of a generated tool, a template file
    that cannot be read, or code that the formatter refuses, makes
    [parseResponse] throw what the library threw: no tool is returned. *)
Theorem parseResponse_passes_on_formatting_failure :
  forall (raw : string) (members : object) (n d : string) (i o : object)
         (c : string),
    JSON.parse raw = Some (JObj members) ->
    GeneratedTool_shaped members n d i o c ->
    (forall e,
        readFileSync (resolveFromSrc "templates/langchain-tool.hbs") = inl e ->
        parseResponse raw = inl (Thrown e))
    /\ (forall template e,
           readFileSync (resolveFromSrc "templates/langchain-tool.hbs")
           = inr template ->
           format c = inl e ->
           parseResponse raw = inl (Thrown e)).
Proof.
  intros raw members n d i o c Hparse Hshape.
  destruct (GeneratedToolSchema_accepts Hshape) as (i' & o' & Hvalid).
  split.
  - intros e Hread. unfold parseResponse. rewrite Hparse, Hvalid.
    cbn [bind generated Obj.get String.eqb Ascii.eqb Bool.eqb slugify_value].
    unfold new_ToolFormatter. now rewrite Hread.
  - intros template e Hread Hformat. unfold parseResponse.
    rewrite Hparse, Hvalid.
    cbn [bind generated Obj.get String.eqb Ascii.eqb Bool.eqb slugify_value].
    unfold new_ToolFormatter. rewrite Hread.
    cbn [library bind]. unfold toolWithFormats, toLangChain.
    cbn [tool langchainTemplate]. cbn. now rewrite Hformat.
Qed.

End Formatting.

(** ** The further properties at work *)

Lemma generate_returns_output_field_witness :
  fst (generate Demo.answering_chain JNull Demo.fresh) = inr csv_response.
Proof.
  apply (proj2 (@generate_returns_output_field json Demo.answering_chain
                  JNull Demo.fresh csv_response)).
  exists [("text", csv_response)].
  split; [reflexivity|]. split; [reflexivity|]. discriminate.
Defined.

Lemma generate_rethrows_chain_failure_witness :
  fst (generate Demo.failing_chain JNull Demo.fresh)
  = inl (Thrown {| err_name := "Error";
                   err_message := "Request failed with status code 429" |}).
Proof.
  apply (proj2 (@generate_rethrows_chain_failure json Demo.failing_chain
                  JNull Demo.fresh _)).
  reflexivity.
Defined.

Lemma generate_quiet_keeps_handlers_witness :
  logToConsole Demo.quiet_chain = false
  /\ handlers (snd (generate Demo.quiet_chain JNull Demo.busy)) = [0; 2].
Proof.
  split; [reflexivity|].
  exact (@generate_quiet_keeps_handlers json Demo.quiet_chain JNull
           Demo.busy eq_refl).
Defined.



Lemma failed_calls_pile_up_handlers_witness :
  logToConsole Demo.stray_chain = true
  /\ (forall input, In input [JNull; JBool true; JNull] ->
                    answer Demo.stray_chain input = None)
  /\ handlers (generate_all Demo.stray_chain [JNull; JBool true; JNull]
                 Demo.busy) = [0; 2; 3; 4; 5]
  /\ length (calls (generate_all Demo.stray_chain [JNull; JBool true; JNull]
                      Demo.busy)) = 3.
Proof.
  assert (Hfail : forall input, In input [JNull; JBool true; JNull] ->
                                answer Demo.stray_chain input = None)
    by (intros input _; reflexivity).
  split; [reflexivity|]. split; [exact Hfail|].
  exact (@failed_calls_pile_up_handlers json Demo.stray_chain
           [JNull; JBool true; JNull] Demo.busy eq_refl Hfail).
Defined.

Lemma new_Toolkit_requires_keys_witness :
  new_Toolkit (lib := Demo.without_files) None Demo.no_env
  = inl (Error "OpenAI API key not defined in params or environment")
  /\ new_Toolkit (lib := Demo.libraries)
       (Some {| toolkit_openAIApiKey := Some "k1";
                toolkit_serpApiKey := Some "";
                toolkit_logToConsole := None |}) Demo.no_env
     = inl (Error "Serp API key not defined in params or environment").
Proof.
  split.
  - apply (proj2 (proj1 (@new_Toolkit_requires_keys Demo.without_files None
                           Demo.no_env))).
    reflexivity.
  - apply (proj2 (proj1 (proj2 (@new_Toolkit_requires_keys Demo.libraries
                                  _ Demo.no_env)))).
    split; reflexivity.
Defined.

Lemma new_Toolkit_wires_chains_witness :
  exists toolkit,
    new_Toolkit (lib := Demo.libraries) (Some Demo.empty_key) Demo.env_key
    = inr toolkit
    /\ openAIApiKey (generatorChain toolkit) = "from-env"
    /\ openAIApiKey (executorChain toolkit) = "from-env"
    /\ logToConsole (iteratorChain toolkit) = true
    /\ getOutputKey (executorChain toolkit) = "output".
Proof.
  destruct (new_Toolkit (lib := Demo.libraries) (Some Demo.empty_key)
              Demo.env_key) as [e|toolkit] eqn:Hnew; [discriminate|].
  exists toolkit. split; [reflexivity|].
  destruct (@new_Toolkit_wires_chains Demo.libraries _ _ _ Hnew)
    as (Hkey & Hx & _ & _ & _ & Hlog & _ & Hout & _).
  injection Hkey as Hkey.
  rewrite Hx, <- Hkey. now repeat split.
Defined.

Lemma new_Toolkit_needs_templates_witness :
  new_Toolkit (lib := Demo.without_files) (Some Demo.keys) Demo.no_env
  = inl (Thrown Demo.no_file).
Proof.
  apply (@new_Toolkit_needs_templates Demo.without_files); reflexivity.
Defined.


Lemma generateTool_sends_input_witness :
  exists toolkit,
    new_Toolkit (lib := Demo.libraries) (Some Demo.keys) Demo.no_env
    = inr toolkit
    /\ map (map fst)
         (calls (executorState
                   (snd (generateTool (lib := Demo.libraries) toolkit JNull
                           false Demo.world))))
       = [["generateToolInput"; "tools"; "toolNames"]]
    /\ map (map fst)
         (calls (generatorState
                   (snd (generateTool (lib := Demo.libraries) toolkit JNull
                           true Demo.world))))
       = [["generateToolInput"]].
Proof.
  destruct (new_Toolkit (lib := Demo.libraries) (Some Demo.keys) Demo.no_env)
    as [e|toolkit] eqn:Hnew; [discriminate|].
  exists toolkit. split; [reflexivity|].
  destruct (@generateTool_sends_input Demo.libraries _ _ _ JNull Demo.world
              Hnew)
    as (k & _ & Hx & Hg).
  rewrite Hx, Hg. split; reflexivity.
Defined.

Lemma chains_supply_prompt_variables_witness :
  exists prompt this,
    ExecutorChain_getPromptTemplate (lib := Demo.libraries) = inr prompt
    /\ ExecutorChain (lib := Demo.libraries)
         {| input_openAIApiKey := "k1"; input_serpApiKey := "k2";
            input_logToConsole := false |} = inr this
    /\ prompt_inputVariables prompt
       = (map fst (getChainValues this JNull) ++ ["agent_scratchpad"])%list.
Proof.
  destruct (ExecutorChain_getPromptTemplate (lib := Demo.libraries))
    as [e|prompt] eqn:Hp; [discriminate|].
  destruct (ExecutorChain (lib := Demo.libraries)
              {| input_openAIApiKey := "k1"; input_serpApiKey := "k2";
                 input_logToConsole := false |}) as [e|this] eqn:Hc;
    [discriminate|].
  exists prompt, this. split; [reflexivity|]. split; [reflexivity|].
  exact (proj1 (proj2 (@chains_supply_prompt_variables Demo.libraries _))
           prompt this JNull Hp Hc).
Defined.

Lemma JsonValueSchema_takes_every_value_witness :
  plain (JObj Demo.nested_schema) = true
  /\ JsonValueSchema [] (Some (JObj Demo.nested_schema))
     = inr (JObj Demo.nested_schema).
Proof.
  split; [reflexivity|].
  apply (proj1 (proj2 (proj2 JsonValueSchema_takes_every_value))).
  reflexivity.
Defined.

Lemma GeneratedToolSchema_takes_tools_witness :
  exists generatedTool,
    GeneratedToolSchema_parse (JObj Demo.overriding_members)
    = inr generatedTool.
Proof.
  apply (proj2 (GeneratedToolSchema_takes_tools
                  (JObj Demo.overriding_members))).
  exists "CSV Parser", "Parses CSV.", [], [], "function f(x){return x}".
  repeat split.
Defined.


Lemma parseResponse_makes_tool_witness :
  parseResponse (lib := Demo.libraries) Demo.overriding_response
  = inr (formatted_tool "csv-parser" "CSV Parser" "Parses CSV." [] []
           "function f(x){return x}" "class csv-parser").
Proof.
  apply (@parseResponse_makes_tool Demo.libraries Demo.overriding_response
           Demo.overriding_members "CSV Parser" "Parses CSV." [] []
           "function f(x){return x}"
           (resolveFromSrc (lib := Demo.libraries)
              "templates/langchain-tool.hbs")
           "function f(x){return x}" "class csv-parser");
    try reflexivity.
  repeat split.
Defined.

Lemma parseResponse_passes_on_formatting_failure_witness :
  parseResponse (lib := Demo.without_files) csv_response
  = inl (Thrown Demo.no_file)
  /\ parseResponse (lib := Demo.with_strict_formatter) csv_response
     = inl (Thrown Demo.bad_code).
Proof.
  assert (Hshape : GeneratedTool_shaped
                     (generated "CSV Parser" "Parses CSV." [] []
                        "function f(x){return x}")
                     "CSV Parser" "Parses CSV." [] []
                     "function f(x){return x}") by (repeat split).
  split.
  - apply (proj1 (@parseResponse_passes_on_formatting_failure
                    Demo.without_files csv_response _ _ _ _ _ _
                    csv_response_parsed Hshape)).
    reflexivity.
  - apply (proj2 (@parseResponse_passes_on_formatting_failure
                    Demo.with_strict_formatter csv_response _ _ _ _ _ _
                    csv_response_parsed Hshape)
             (resolveFromSrc (lib := Demo.with_strict_formatter)
                "templates/langchain-tool.hbs")); reflexivity.
Defined.
